(** * PRD and implementation-plan generator ([pl.py])

    A shallow embedding of the Streamlit script: the two prompt builders,
    the two generation functions, the start-up credential check and the two
    tab handlers, run against an explicit world (session state, model-library
    configuration, rendered elements, log of model calls). *)

From stdpp Require Import gmap strings list fin_maps numbers.

Local Open Scope N_scope.

(** ** Python strings

    A Python [str] is a sequence of Unicode code points; [bytes] is a
    sequence of octets.  Both are lists of [N]. *)

Abbreviation str := (list N).
Abbreviation bytes := (list N).

(** Source literals are written as UTF-8 text and decoded to code points. *)
Fixpoint utf8_decode (bs : bytes) : str :=
  match bs with
  | [] => []
  | b0 :: r0 =>
    if b0 <? 0x80 then b0 :: utf8_decode r0
    else if b0 <? 0xE0 then
      match r0 with
      | b1 :: r1 => (b0 mod 32 * 64 + b1 mod 64) :: utf8_decode r1
      | [] => [b0]
      end
    else if b0 <? 0xF0 then
      match r0 with
      | b1 :: b2 :: r2 =>
          (b0 mod 16 * 4096 + b1 mod 64 * 64 + b2 mod 64) :: utf8_decode r2
      | _ => [b0]
      end
    else
      match r0 with
      | b1 :: b2 :: b3 :: r3 =>
          (b0 mod 8 * 262144 + b1 mod 64 * 4096 + b2 mod 64 * 64 + b3 mod 64)
            :: utf8_decode r3
      | _ => [b0]
      end
  end.

Definition octets (s : string) : bytes :=
  (λ a, Ascii.N_of_ascii a) <$> String.list_ascii_of_string s.

Definition py (s : string) : str := utf8_decode (octets s).

(** [bool(s)] for a [str]: true exactly for the non-empty ones. *)
Definition truthy (s : str) : bool :=
  match s with [] => false | _ :: _ => true end.

(** [bool(v)] for a value that is [None] or a [str]. *)
Definition truthy_opt (v : option str) : bool :=
  match v with None => false | Some s => truthy s end.

Definition str_eqb (a b : str) : bool := bool_decide (a = b).

(** [c.isspace()] for one code point, as [str.strip()] without arguments
    tests it. *)
Definition isspace (c : N) : bool :=
  ((0x09 <=? c) && (c <=? 0x0D)) || ((0x1C <=? c) && (c <=? 0x20))
  || (c =? 0x85) || (c =? 0xA0) || (c =? 0x1680)
  || ((0x2000 <=? c) && (c <=? 0x200A))
  || (c =? 0x2028) || (c =? 0x2029) || (c =? 0x202F) || (c =? 0x205F)
  || (c =? 0x3000).

Fixpoint lstrip (s : str) : str :=
  match s with
  | [] => []
  | c :: r => if isspace c then lstrip r else s
  end.

Definition rstrip (s : str) : str := reverse (lstrip (reverse s)).

Definition strip (s : str) : str := rstrip (lstrip s).

(** [s.replace(old, new)] where [old] and [new] are single characters. *)
Definition replace (old new : N) (s : str) : str :=
  (λ c, if c =? old then new else c) <$> s.

Definition SPACE : N := 0x20.
Definition UNDERSCORE : N := 0x5F.

(** ** Exceptions *)

Inductive exn := PyExn (name : string).

Inductive outcome (A : Type) : Type :=
| Ok (a : A)
| Raised (e : exn).
Arguments Ok {A} a.
Arguments Raised {A} e.

(** [s.encode("utf-8")]: surrogates cannot be encoded. *)
Definition utf8_encode_cp (c : N) : option bytes :=
  if c <? 0x80 then Some [c]
  else if c <? 0x800 then Some [0xC0 + c / 64; 0x80 + c mod 64]
  else if (0xD800 <=? c) && (c <=? 0xDFFF) then None
  else if c <? 0x10000 then
    Some [0xE0 + c / 4096; 0x80 + c / 64 mod 64; 0x80 + c mod 64]
  else if c <? 0x110000 then
    Some [0xF0 + c / 262144; 0x80 + c / 4096 mod 64;
          0x80 + c / 64 mod 64; 0x80 + c mod 64]
  else None.

Fixpoint utf8_encode (s : str) : option bytes :=
  match s with
  | [] => Some []
  | c :: r =>
      match utf8_encode_cp c, utf8_encode r with
      | Some b, Some bs => Some (b ++ bs)
      | _, _ => None
      end
  end.

(** ** [datetime] and [strftime] *)

Record datetime := DateTime {
  year : N; month : N; day : N; hour : N; minute : N; second : N
}.

Definition valid_datetime (d : datetime) : bool :=
  (1 <=? year d) && (year d <=? 9999)
  && (1 <=? month d) && (month d <=? 12)
  && (1 <=? day d) && (day d <=? 31)
  && (hour d <=? 23) && (minute d <=? 59) && (second d <=? 59).

Definition is_digit (c : N) : bool := (0x30 <=? c) && (c <=? 0x39).

Fixpoint uint_digits (u : Decimal.uint) : str :=
  match u with
  | Decimal.Nil => []
  | Decimal.D0 r => 0x30 :: uint_digits r
  | Decimal.D1 r => 0x31 :: uint_digits r
  | Decimal.D2 r => 0x32 :: uint_digits r
  | Decimal.D3 r => 0x33 :: uint_digits r
  | Decimal.D4 r => 0x34 :: uint_digits r
  | Decimal.D5 r => 0x35 :: uint_digits r
  | Decimal.D6 r => 0x36 :: uint_digits r
  | Decimal.D7 r => 0x37 :: uint_digits r
  | Decimal.D8 r => 0x38 :: uint_digits r
  | Decimal.D9 r => 0x39 :: uint_digits r
  end.

(** The decimal numeral of [n], without leading zeros. *)
Definition decimal (n : N) : str := uint_digits (N.to_uint n).

(** Left padding with ['0'] up to [width] characters. *)
Definition zfill (width : nat) (s : str) : str :=
  replicate (width - length s)%nat 0x30 ++ s.

(** [d.strftime('%Y%m%d_%H%M%S')].  [%m], [%d], [%H], [%M] and [%S] are zero
    padded to two digits.  Whether [%Y] pads years below 1000 depends on the
    platform's C library; from year 1000 on all agree. *)
Definition strftime_Ymd_HMS (d : datetime) : str :=
  zfill 4 (decimal (year d)) ++ zfill 2 (decimal (month d))
  ++ zfill 2 (decimal (day d)) ++ [UNDERSCORE]
  ++ zfill 2 (decimal (hour d)) ++ zfill 2 (decimal (minute d))
  ++ zfill 2 (decimal (second d)).

(** ** The world the script runs in *)

(** One invocation of [model.generate_content]: the credential the library
    was configured with at that moment, the model name and the prompt. *)
Record call := Call {
  call_key : option str;
  call_model : str;
  call_prompt : str
}.

(** What the code observes of the object [generate_content] returns: its
    truth value ([None] and empty values are false) and what reading its
    [.text] attribute gives. *)
Record response := Response {
  resp_truthy : bool;
  resp_text : outcome str
}.

(** The external model: from the configured credential, the model name and
    the prompt to a response, or an exception. *)
Definition provider : Type := option str → str → str → outcome response.

(** Elements placed on the page, in rendering order. *)
Inductive element :=
| el_page_config (page_title layout : str)
| el_title (body : str)
| el_tabs (labels : list str)
| el_subheader (body : str)
| el_write (body : str)
| el_markdown (body : str)
| el_error (body : str)
| el_warning (body : str)
| el_spinner (text : str)
| el_text_input (label placeholder : str)
| el_text_area (label value placeholder : str)
| el_selectbox (label : str) (options : list str)
| el_radio (label : str) (options : list str)
| el_button (label : str)
| el_download_button (label : str) (data : bytes) (file_name mime : str).

Record world := World {
  session_state : gmap string str;
  genai_key : option str;
  page : list element;
  calls : list call
}.

(** Script code: reads and updates the world, returns a value or raises. *)
Definition M (A : Type) : Type := world → outcome A * world.

#[global] Instance M_ret : MRet M := λ A a w, (Ok a, w).

#[global] Instance M_bind : MBind M := λ A B f m w,
  match m w with
  | (Ok a, w') => f a w'
  | (Raised e, w') => (Raised e, w')
  end.

Definition lift {A} (o : outcome A) : M A := λ w, (o, w).

Definition render (e : element) : M unit := λ w,
  (Ok tt, World (session_state w) (genai_key w) (page w ++ [e]) (calls w)).

(** [st.session_state[k] = v] *)
Definition session_state_set (k : string) (v : str) : M unit := λ w,
  (Ok tt, World (<[k := v]> (session_state w)) (genai_key w) (page w) (calls w)).

(** [st.session_state.get(k, dflt)] *)
Definition session_state_get (k : string) (dflt : str) : M str := λ w,
  (Ok (default dflt (session_state w !! k)), w).

(** [genai.configure(api_key=k)] *)
Definition genai_configure (k : option str) : M unit := λ w,
  (Ok tt, World (session_state w) k (page w) (calls w)).

(** [genai.GenerativeModel(model).generate_content(prompt)] *)
Definition generate_content (gemini : provider) (model prompt : str)
  : M response := λ w,
  (gemini (genai_key w) model prompt,
   World (session_state w) (genai_key w) (page w)
         (calls w ++ [Call (genai_key w) model prompt])).

(** [s.encode("utf-8")] *)
Definition encode (s : str) : M bytes :=
  match utf8_encode s with
  | Some b => mret b
  | None => lift (Raised (PyExn "UnicodeEncodeError"))
  end.

(** *** Streamlit calls *)

(** [st.set_page_config].  Streamlit up to release 1.45 requires it to be
    the first Streamlit command of a run and raises otherwise; later
    releases accept it anywhere.  [must_be_first] says which of the two
    rules the installed release follows. *)
Definition st_set_page_config (must_be_first : bool)
    (page_title layout : str) : M unit := λ w,
  match must_be_first, page w with
  | true, _ :: _ =>
      (Raised (PyExn "StreamlitSetPageConfigMustBeFirstCommandError"), w)
  | _, _ => render (el_page_config page_title layout) w
  end.
Definition st_title (body : str) : M unit := render (el_title body).
Definition st_tabs (labels : list str) : M unit := render (el_tabs labels).
Definition st_subheader (body : str) : M unit := render (el_subheader body).
Definition st_write (body : str) : M unit := render (el_write body).
(** [st.markdown]: the text is sent to the browser as UTF-8, and a text
    that cannot be encoded (a lone surrogate) is refused with an exception. *)
Definition st_markdown (body : str) : M unit :=
  match utf8_encode body with
  | Some _ => render (el_markdown body)
  | None => lift (Raised (PyExn "UnicodeEncodeError"))
  end.
Definition st_error (body : str) : M unit := render (el_error body).
Definition st_warning (body : str) : M unit := render (el_warning body).
Definition st_spinner (text : str) : M unit := render (el_spinner text).
Definition st_download_button (label : str) (data : bytes)
    (file_name mime : str) : M unit :=
  render (el_download_button label data file_name mime).

(** Input widgets return what the user has entered or chosen ([entered],
    [chosen], [pressed]). *)
Definition st_text_input (label placeholder entered : str) : M str :=
  render (el_text_input label placeholder);; mret entered.

(** A text area shows [value] until the user edits it. *)
Definition st_text_area (label value placeholder : str)
    (edited : option str) : M str :=
  render (el_text_area label value placeholder);; mret (default value edited).

Definition st_selectbox (label : str) (options : list str) (chosen : str)
  : M str :=
  render (el_selectbox label options);; mret chosen.

(** A widget with a [key] also stores its value in the session state. *)
Definition st_selectbox_key (label : str) (options : list str) (key : string)
    (chosen : str) : M str :=
  render (el_selectbox label options);;
  session_state_set key chosen;;
  mret chosen.

Definition st_radio (label : str) (options : list str) (chosen : str)
  : M str :=
  render (el_radio label options);; mret chosen.

Definition st_button (label : str) (pressed : bool) : M bool :=
  render (el_button label);; mret pressed.

(** ** What the user and the environment supply to one run of the script *)

Inductive app_type := WebApp | MobileApp | Hybrid | AITool | IoTApp.
Inductive language := English | Hindi | Telugu.
Inductive export_format := Markdown | Text.

Definition app_type_str (t : app_type) : str :=
  match t with
  | WebApp => py "Web App"
  | MobileApp => py "Mobile App"
  | Hybrid => py "Hybrid"
  | AITool => py "AI Tool"
  | IoTApp => py "IoT App"
  end.

Definition language_str (l : language) : str :=
  match l with
  | English => py "English"
  | Hindi => py "Hindi"
  | Telugu => py "Telugu"
  end.

Definition export_format_str (f : export_format) : str :=
  match f with
  | Markdown => py "Markdown"
  | Text => py "Text"
  end.

(** A button is pressed only in the run its click triggers. *)
Inductive click := NoClick | ClickGeneratePRD | ClickGeneratePlan.

Definition click_eqb (a b : click) : bool :=
  match a, b with
  | NoClick, NoClick => true
  | ClickGeneratePRD, ClickGeneratePRD => true
  | ClickGeneratePlan, ClickGeneratePlan => true
  | _, _ => false
  end.

Record run_input := RunInput {
  env_GOOGLE_API_KEY : option str;
  in_app_name : str;
  in_app_idea : str;
  in_app_type : app_type;
  in_language : language;
  in_export_format : export_format;
  in_prd_input : option str;
  in_plan_language : language;
  in_click : click;
  in_now : datetime;
  in_gemini : provider;
  (* the installed Streamlit release: whether [set_page_config] must be the
     first Streamlit command of a run (up to 1.45) or not (later); the
     repository pins no release *)
  st_page_config_first : bool
}.

(** ** The script *)

Definition NO_RESPONSE : str := py "⚠️ No response from Gemini.".
Definition MODEL : str := py "gemini-1.5-flash".

(** The f-string of [generate_prd]. *)
Definition prd_prompt (app_name app_idea app_type language : str) : str :=
  py "
    You are an expert product manager. Create a **Product Requirements Document (PRD)** 
    for the following app idea. The PRD should be clear, structured, and tailored 
    to the app type and description provided.

    App Name: "
  ++ app_name
  ++ py "
    App Type: "
  ++ app_type
  ++ py "
    Description: "
  ++ app_idea
  ++ py "

    Structure the PRD with these sections:
    1. Overview
    2. Essential Core Features
    3. Tech Stack
    4. Design Preferences
    5. All Screens/Pages
    6. App Menu and Navigation Structure
    7. User Flow
    8. Monetization Strategy
    9. Risks & Challenges
    10. Roadmap (MVP → Future Releases)

    Language: "
  ++ language
  ++ py "
    ".

(** The f-string of [generate_plan]. *)
Definition plan_prompt (prd_text language : str) : str :=
  py "
    You are a senior software architect. Carefully read the PRD below and 
    generate a **unique, PRD-specific step-by-step implementation plan**.

    --- PRD START ---
    "
  ++ prd_text
  ++ py "
    --- PRD END ---

    Rules for the implementation plan:
    - Break the plan into logical phases (e.g., Frontend, Backend, AI Integration, Authentication, Testing, Deployment, Optimization). 
      Only include phases that are relevant to THIS PRD.
    - For each phase, provide:
      • Objectives  
      • Detailed Tasks (must reference actual features, APIs, and technologies mentioned in the PRD)  
      • Deliverables  
    - Do NOT create generic filler tasks. All tasks must map directly to the PRD.
    - If the PRD specifies unique tools (e.g., Supabase, Firebase, OCR API, OpenAI), mention them explicitly in tasks.
    - If the PRD is lightweight, reduce the number of phases but go deeper into tasks.
    - Ensure the final roadmap looks like a professional execution plan tailored to this project.

    Language: "
  ++ language
  ++ py "
    ".

Definition generate_prd (gemini : provider)
    (app_name app_idea app_type language : str) : M str :=
  let prompt := prd_prompt app_name app_idea app_type language in
  response ← generate_content gemini MODEL prompt;
  if resp_truthy response then lift (resp_text response)
  else mret NO_RESPONSE.

Definition generate_plan (gemini : provider) (prd_text language : str)
  : M str :=
  let prompt := plan_prompt prd_text language in
  response ← generate_content gemini MODEL prompt;
  if resp_truthy response then lift (resp_text response)
  else mret NO_RESPONSE.

(** Load API Key *)
Definition startup (inp : run_input) : M unit :=
  let API_KEY := env_GOOGLE_API_KEY inp in
  if negb (truthy_opt API_KEY) then
    st_error (py "❌ GOOGLE_API_KEY not set in .env file.")
  else
    genai_configure API_KEY.

Definition APP_TYPES : list str :=
  [py "Web App"; py "Mobile App"; py "Hybrid"; py "AI Tool"; py "IoT App"].
Definition LANGUAGES : list str := [py "English"; py "Hindi"; py "Telugu"].
Definition EXPORT_FORMATS : list str := [py "Markdown"; py "Text"].

(** Tab 1: PRD Generator *)
Definition tab1 (inp : run_input) : M unit :=
  st_subheader (py "📄 Generate Product Requirements Document (PRD)");;
  app_name ← st_text_input (py "App Name") (py "e.g., PRD Forge")
                (in_app_name inp);
  app_idea ← st_text_area (py "Describe your app idea") (py "")
                (py "Enter a short description...") (Some (in_app_idea inp));
  app_type ← st_selectbox (py "App Type") APP_TYPES
                (app_type_str (in_app_type inp));
  language ← st_selectbox (py "Output Language") LANGUAGES
                (language_str (in_language inp));
  export_format ← st_radio (py "Export Format") EXPORT_FORMATS
                (export_format_str (in_export_format inp));
  pressed ← st_button (py "🚀 Generate PRD")
                (click_eqb (in_click inp) ClickGeneratePRD);
  if (pressed : bool) return M unit then
    if negb (truthy app_idea) || negb (truthy app_name) return M unit then
      st_warning (py "⚠️ Please enter both App Name and Description.")
    else
      st_spinner (py "Generating PRD... ⏳");;
      prd_output ← generate_prd (in_gemini inp) app_name app_idea app_type
                      language;
      st_subheader (py "📑 Generated PRD");;
      st_markdown prd_output;;
      (* Save for Tab 2 use *)
      session_state_set "last_prd" prd_output;;
      (* Export *)
      let file_name := replace SPACE UNDERSCORE app_name ++ py "_PRD_"
                       ++ strftime_Ymd_HMS (in_now inp) in
      file_content ← encode prd_output;
      if str_eqb export_format (py "Markdown") then
        st_download_button (py "⬇️ Download PRD (Markdown)") file_content
          (file_name ++ py ".md") (py "text/markdown")
      else
        st_download_button (py "⬇️ Download PRD (Text)") file_content
          (file_name ++ py ".txt") (py "text/plain")
  else mret tt.

(** Tab 2: Implementation Plan Generator *)
Definition tab2 (inp : run_input) : M unit :=
  st_subheader (py "🚀 Generate Project Implementation Plan");;
  st_write (py "Paste a PRD below or use the one you just generated in Tab 1.");;
  last_prd ← session_state_get "last_prd" (py "");
  prd_input ← st_text_area (py "PRD Input") last_prd (py "")
                 (in_prd_input inp);
  plan_language ← st_selectbox_key (py "Plan Language") LANGUAGES "plan_lang"
                 (language_str (in_plan_language inp));
  pressed ← st_button (py "⚡ Generate Implementation Plan")
                 (click_eqb (in_click inp) ClickGeneratePlan);
  if (pressed : bool) return M unit then
    if negb (truthy (strip prd_input)) return M unit then
      st_warning (py "⚠️ Please provide a PRD to generate a plan.")
    else
      st_spinner (py "Generating Implementation Plan... ⏳");;
      plan_output ← generate_plan (in_gemini inp) prd_input plan_language;
      st_subheader (py "📊 Generated Implementation Plan");;
      st_markdown plan_output;;
      (* Export *)
      let file_name := py "ImplementationPlan_"
                       ++ strftime_Ymd_HMS (in_now inp) in
      file_content ← encode plan_output;
      st_download_button (py "⬇️ Download Plan (Markdown)") file_content
        (file_name ++ py ".md") (py "text/markdown")
  else mret tt.

(** The whole script, top to bottom. *)
Definition script (inp : run_input) : M unit :=
  startup inp;;
  st_set_page_config (st_page_config_first inp)
    (py "PRD & Plan Generator") (py "wide");;
  st_title (py "📄 PRD & 🚀 Implementation Plan Generator");;
  st_tabs [py "📄 Generate PRD"; py "🚀 Generate Implementation Plan"];;
  tab1 inp;;
  tab2 inp.

(** Streamlit reruns the script on every interaction: the page is rebuilt,
    the session state and the library configuration persist. *)
Definition rerun (inp : run_input) (w : world) : world :=
  (script inp (World (session_state w) (genai_key w) [] (calls w))).2.

Fixpoint reruns (inps : list run_input) (w : world) : world :=
  match inps with
  | [] => w
  | inp :: rest => reruns rest (rerun inp w)
  end.

(** ** Observations on a page and on a run *)

Definition errors (p : list element) : list str :=
  omap (λ e, match e with el_error b => Some b | _ => None end) p.

Definition warnings (p : list element) : list str :=
  omap (λ e, match e with el_warning b => Some b | _ => None end) p.

Definition markdowns (p : list element) : list str :=
  omap (λ e, match e with el_markdown b => Some b | _ => None end) p.

(** The file names of the download buttons on the page. *)
Definition downloads (p : list element) : list str :=
  omap (λ e, match e with
             | el_download_button _ _ f _ => Some f
             | _ => None
             end) p.

(** The PRD text a run displays after a click on "Generate PRD", if any. *)
Definition prd_generated (inp : run_input) (w : world) : option str :=
  if click_eqb (in_click inp) ClickGeneratePRD
  then head (markdowns (page (rerun inp w))) else None.

(** The plan text a run displays after a click on "Generate Implementation
    Plan", if any. *)
Definition plan_generated (inp : run_input) (w : world) : option str :=
  if click_eqb (in_click inp) ClickGeneratePlan
  then head (markdowns (page (rerun inp w))) else None.

(** What the "PRD Input" text area returns in a run started in [w]. *)
Definition plan_source (inp : run_input) (w : world) : str :=
  default (default (py "") (session_state w !! "last_prd")) (in_prd_input inp).

(** Whether a run gets past [st.set_page_config] to the two tabs: always
    on a release that accepts the call anywhere; on the others only when no
    [st.error] came before it, that is, when the credential is present. *)
Definition tabs_reached (inp : run_input) : bool :=
  negb (st_page_config_first inp) || truthy_opt (env_GOOGLE_API_KEY inp).

(** The submission checks of the two handlers. *)
Definition prd_accepted (inp : run_input) : bool :=
  click_eqb (in_click inp) ClickGeneratePRD
  && negb (negb (truthy (in_app_idea inp)) || negb (truthy (in_app_name inp))).

Definition plan_accepted (inp : run_input) (w : world) : bool :=
  click_eqb (in_click inp) ClickGeneratePlan
  && negb (negb (truthy (strip (plan_source inp w)))).

(** No run of the sequence displays a newly generated PRD. *)
Fixpoint no_prd_generated (inps : list run_input) (w : world) : Prop :=
  match inps with
  | [] => True
  | inp :: rest => prd_generated inp w = None ∧ no_prd_generated rest (rerun inp w)
  end.

(** [s] occurs in [t] as a contiguous, unchanged run of characters. *)
Definition substring (s t : str) : Prop := ∃ pre post, t = pre ++ s ++ post.

(** The prompts of the calls made between [w] and [w']. *)
Definition prompts_sent (w w' : world) : list str :=
  call_prompt <$> drop (length (calls w)) (calls w').


Definition two_digits (s : str) : bool :=
  match s with [a; b] => is_digit a && is_digit b | _ => false end.

Definition four_digits (s : str) : bool :=
  match s with
  | [a; b; c; d] => is_digit a && is_digit b && is_digit c && is_digit d
  | _ => false
  end.

(** ** Sample sessions

    The sample inputs are set on a Streamlit release that accepts
    [set_page_config] anywhere; [on_strict_release] moves one to an older
    release. *)

Definition fresh_world : world := World ∅ None [] [].

(** A stand-in for the model service: refuses when no credential is
    configured, answers otherwise. *)
Definition sample_gemini : provider := λ key model prompt,
  match key with
  | None => Raised (PyExn "DefaultCredentialsError")
  | Some _ => Ok (Response true (Ok (py "# TaskFlow PRD")))
  end.

(** A stand-in that returns [None]. *)
Definition null_gemini : provider := λ key model prompt,
  Ok (Response false (Raised (PyExn "AttributeError"))).

Definition sample_now : datetime := DateTime 2024 3 7 9 5 0.

Definition taskflow_submit (key : option str) (gemini : provider) : run_input :=
  RunInput key (py "TaskFlow") (py "A todo app") WebApp English Markdown
           None English ClickGeneratePRD sample_now gemini false.

Definition plan_submit (key : option str) (edited : option str)
    (gemini : provider) : run_input :=
  RunInput key (py "") (py "") WebApp English Markdown
           edited English ClickGeneratePlan sample_now gemini false.

Definition idle (key : option str) (gemini : provider) : run_input :=
  RunInput key (py "") (py "") WebApp English Markdown
           None English NoClick sample_now gemini false.

(** A PRD submission whose name and description are whitespace only. *)
Definition blank_prd_submit : run_input :=
  RunInput None [0x20; 0x20] [0x09; 0x3000] MobileApp Hindi Text None English
           ClickGeneratePRD sample_now sample_gemini false.

(** The same input under a Streamlit release where [set_page_config] must
    be the first command. *)
Definition on_strict_release (inp : run_input) : run_input :=
  RunInput (env_GOOGLE_API_KEY inp) (in_app_name inp) (in_app_idea inp)
           (in_app_type inp) (in_language inp) (in_export_format inp)
           (in_prd_input inp) (in_plan_language inp) (in_click inp)
           (in_now inp) (in_gemini inp) true.

(** ** Further observations *)

(** How a run of the script ends: normally, or aborted by an exception. *)
Definition run_outcome (inp : run_input) (w : world) : outcome unit :=
  (script inp (World (session_state w) (genai_key w) [] (calls w))).1.

(** Content, file name and MIME type of the download buttons on the page. *)
Definition exports (p : list element) : list (bytes * str * str) :=
  omap (λ e, match e with
             | el_download_button _ d f m => Some (d, f, m)
             | _ => None
             end) p.

(** The labels of the buttons on the page; the second one belongs to the
    Plan tab. *)
Definition buttons (p : list element) : list str :=
  omap (λ e, match e with el_button l => Some l | _ => None end) p.

(** What [generate_prd] and [generate_plan] make of the provider's answer. *)
Definition answer (o : outcome response) : outcome str :=
  match o with
  | Ok r => if resp_truthy r then resp_text r else Ok NO_RESPONSE
  | Raised e => Raised e
  end.

(** The generation a run performs, if it reaches the tabs and its
    submission is accepted. *)
Definition generation (inp : run_input) (w : world) : option (outcome str) :=
  let key := if truthy_opt (env_GOOGLE_API_KEY inp) then env_GOOGLE_API_KEY inp
             else genai_key w in
  if negb (tabs_reached inp) then None
  else if prd_accepted inp then
    Some (answer (in_gemini inp key MODEL
                    (prd_prompt (in_app_name inp) (in_app_idea inp)
                       (app_type_str (in_app_type inp))
                       (language_str (in_language inp)))))
  else if plan_accepted inp w then
    Some (answer (in_gemini inp key MODEL
                    (plan_prompt (plan_source inp w)
                       (language_str (in_plan_language inp)))))
  else None.

(** The value of a string of decimal digits. *)
Definition digits_value (s : str) : N :=
  foldl (λ acc c, 10 * acc + (c - 0x30)) 0 s.

(** Reading a time stamp [YYYYMMDD_HHMMSS] back. *)
Definition parse_timestamp (s : str) : datetime :=
  DateTime (digits_value (take 4 s))
           (digits_value (take 2 (drop 4 s)))
           (digits_value (take 2 (drop 6 s)))
           (digits_value (take 2 (drop 9 s)))
           (digits_value (take 2 (drop 11 s)))
           (digits_value (take 2 (drop 13 s))).

(** A stand-in whose text holds a lone surrogate, which UTF-8 cannot encode. *)
Definition surrogate_gemini : provider := λ key model prompt,
  Ok (Response true (Ok [0x50; 0xD800])).

(** * Properties *)

(** ** Sanity checks of the string model *)

Example py_ascii : py "a b" = [0x61; 0x20; 0x62].
Proof. vm_compute. reflexivity. Qed.

Example py_arrow : py "→" = [0x2192].
Proof. vm_compute. reflexivity. Qed.

Example py_page : py "📄" = [0x1F4C4].
Proof. vm_compute. reflexivity. Qed.

Example no_response_text :
  NO_RESPONSE = 0x26A0 :: 0xFE0F :: py " No response from Gemini.".
Proof. vm_compute. reflexivity. Qed.

Example encode_arrow : utf8_encode [0x2192] = Some (octets "→").
Proof. vm_compute. reflexivity. Qed.

Example encode_surrogate : utf8_encode [0x61; 0xD800] = None.
Proof. vm_compute. reflexivity. Qed.

Example strip_example : strip (py "  a b ") = py "a b".
Proof. vm_compute. reflexivity. Qed.

Example replace_example :
  replace SPACE UNDERSCORE (py "My Todo App") = py "My_Todo_App".
Proof. vm_compute. reflexivity. Qed.

Example strftime_example :
  strftime_Ymd_HMS (DateTime 2024 3 7 9 5 0) = py "20240307_090500".
Proof. vm_compute. reflexivity. Qed.

Arguments py : simpl never.
Arguments strftime_Ymd_HMS : simpl never.
Arguments replace : simpl never.
Arguments strip : simpl never.
Arguments prd_prompt : simpl never.
Arguments plan_prompt : simpl never.
Arguments str_eqb : simpl never.
Arguments utf8_encode : simpl never.

(** ** Strings *)

Lemma lstrip_whitespace (s : str) :
  Forall (λ c, isspace c = true) s → lstrip s = [].
Proof.
  induction 1 as [|c r Hc _ IH]; [reflexivity|].
  cbn [lstrip]. rewrite Hc. exact IH.
Qed.

Lemma strip_whitespace (s : str) :
  Forall (λ c, isspace c = true) s → strip s = [].
Proof.
  intros Hs. unfold strip, rstrip.
  rewrite (lstrip_whitespace s Hs). reflexivity.
Qed.

Lemma truthy_true (s : str) : truthy s = true ↔ s ≠ [].
Proof. destruct s; cbn; split; congruence. Qed.

Lemma truthy_false (s : str) : truthy s = false ↔ s = [].
Proof. destruct s; cbn; split; congruence. Qed.




Lemma str_eqb_format f :
  str_eqb (export_format_str f) (py "Markdown")
  = match f with Markdown => true | Text => false end.
Proof. destruct f; vm_compute; reflexivity. Qed.

(** ** Time stamps *)

Lemma below_enumerated (k n : N) :
  n < k → In n (map N.of_nat (seq 0 (N.to_nat k))).
Proof.
  intros Hn. rewrite <- (N2Nat.id n). apply in_map. apply in_seq. lia.
Qed.

Lemma two_digits_below_100 (n : N) :
  n < 100 → two_digits (zfill 2 (decimal n)) = true.
Proof.
  intros Hn.
  assert (Hall : forallb (λ m, two_digits (zfill 2 (decimal m)))
                         (map N.of_nat (seq 0 (N.to_nat 100))) = true)
    by (vm_compute; reflexivity).
  rewrite forallb_forall in Hall. apply Hall.
  apply below_enumerated. exact Hn.
Qed.

Lemma four_digits_year (n : N) :
  1000 ≤ n → n ≤ 9999 → four_digits (zfill 4 (decimal n)) = true.
Proof.
  intros Hlo Hhi.
  assert (Hall : forallb (λ m, (m <? 1000) || four_digits (zfill 4 (decimal m)))
                         (map N.of_nat (seq 0 (N.to_nat 10000))) = true)
    by (vm_compute; reflexivity).
  rewrite forallb_forall in Hall.
  specialize (Hall n (below_enumerated 10000 n ltac:(lia))).
  apply orb_true_iff in Hall as [Hlt|Hok]; [|exact Hok].
  apply N.ltb_lt in Hlt. lia.
Qed.


(** ** Running the script symbolically *)

(** Unfolds the script and its monadic plumbing; the record projections are
    unfolded with them, so that every intermediate world reduces. *)
Ltac unfold_script :=
  lazy beta iota zeta delta
    [prd_generated plan_generated prd_accepted plan_accepted plan_source
     tabs_reached rerun script startup tab1 tab2 generate_prd generate_plan encode
     generate_content genai_configure session_state_get session_state_set
     st_set_page_config st_title st_tabs st_subheader st_write st_markdown
     st_error st_warning st_spinner st_download_button st_text_input
     st_text_area st_selectbox st_selectbox_key st_radio st_button render
     lift mbind M_bind mret M_ret session_state genai_key page calls
     env_GOOGLE_API_KEY in_app_name in_app_idea in_app_type in_language
     in_export_format in_prd_input in_plan_language in_click in_now
     in_gemini st_page_config_first fst snd].

Ltac simpl_run := cbn -[insert lookup].

(** One branching point of the script: the export format, the provider's
    answer, the encoding of the result, the blank check of the plan input. *)
Ltac run_step :=
  match goal with
  | |- context [str_eqb (export_format_str ?f) _] =>
      rewrite (str_eqb_format f); destruct f
  | |- context [match ?g ?k MODEL ?p with _ => _ end] =>
      destruct (g k MODEL p) as [[[] [?|?]]|?] eqn:?
  | |- context [match utf8_encode ?s with _ => _ end] =>
      destruct (utf8_encode s) eqn:?
  | |- context [truthy (strip ?s)] => destruct (truthy (strip s)) eqn:?
  end.

Ltac run_script := unfold_script; simpl_run; repeat (run_step; simpl_run).

(** Cases on everything a run branches on that the user supplies. *)
Ltac run_cases inp w :=
  destruct inp as [key name idea ? ? fmt ? ? clk ? ? first], w as [? ? ? ?];
  unfold_script;
  destruct (truthy_opt key) eqn:?, first, name, idea, clk;
  simpl_run; repeat (run_step; simpl_run).

Ltac finish_run :=
  rewrite ?app_nil_r, ?lookup_insert_ne, ?lookup_insert_eq by done;
  try done.

(** Everything the claims observe of one run, computed in one pass: the
    library configuration, the error and warning messages, the calls added
    to the log, the handoff slot and the download file names.  A run that
    does not reach the tabs calls nothing and warns of nothing. *)
Lemma rerun_observed inp w :
  genai_key (rerun inp w)
  = (if truthy_opt (env_GOOGLE_API_KEY inp) then env_GOOGLE_API_KEY inp
     else genai_key w)
  ∧ errors (page (rerun inp w))
    = (if truthy_opt (env_GOOGLE_API_KEY inp) then []
       else [py "❌ GOOGLE_API_KEY not set in .env file."])
  ∧ calls (rerun inp w)
    = calls w ++
      (if negb (tabs_reached inp) then []
       else if prd_accepted inp then
         [Call (genai_key (rerun inp w)) MODEL
               (prd_prompt (in_app_name inp) (in_app_idea inp)
                  (app_type_str (in_app_type inp))
                  (language_str (in_language inp)))]
       else if plan_accepted inp w then
         [Call (genai_key (rerun inp w)) MODEL
               (plan_prompt (plan_source inp w)
                  (language_str (in_plan_language inp)))]
       else [])
  ∧ warnings (page (rerun inp w))
    = match (if tabs_reached inp then in_click inp else NoClick) with
      | NoClick => []
      | ClickGeneratePRD =>
          if negb (truthy (in_app_idea inp)) || negb (truthy (in_app_name inp))
          then [py "⚠️ Please enter both App Name and Description."] else []
      | ClickGeneratePlan =>
          if negb (truthy (strip (plan_source inp w)))
          then [py "⚠️ Please provide a PRD to generate a plan."] else []
      end
  ∧ session_state (rerun inp w) !! "last_prd"
    = match prd_generated inp w with
      | Some R => Some R
      | None => session_state w !! "last_prd"
      end
  ∧ downloads (page (rerun inp w))
    = match in_click inp with
      | NoClick => []
      | ClickGeneratePRD =>
          match prd_generated inp w with
          | Some R =>
              match utf8_encode R with
              | Some _ =>
                  [(replace SPACE UNDERSCORE (in_app_name inp) ++ py "_PRD_"
                    ++ strftime_Ymd_HMS (in_now inp))
                   ++ match in_export_format inp with
                      | Markdown => py ".md"
                      | Text => py ".txt"
                      end]
              | None => []
              end
          | None => []
          end
      | ClickGeneratePlan =>
          match plan_generated inp w with
          | Some P =>
              match utf8_encode P with
              | Some _ =>
                  [(py "ImplementationPlan_" ++ strftime_Ymd_HMS (in_now inp))
                   ++ py ".md"]
              | None => []
              end
          | None => []
          end
      end
  ∧ (prd_accepted inp = false → plan_accepted inp w = false →
     markdowns (page (rerun inp w)) = []).
Proof.
  unfold prd_generated, plan_generated.
  remember (rerun inp w) as r eqn:Hr. revert Hr.
  run_cases inp w; intros ->; simpl_run;
    repeat match goal with
           | H : utf8_encode _ = _ |- _ => rewrite H; clear H
           end;
    repeat split; finish_run.
Qed.

(** The library configuration after a run. *)
Lemma rerun_genai_key inp w :
  genai_key (rerun inp w)
  = if truthy_opt (env_GOOGLE_API_KEY inp) then env_GOOGLE_API_KEY inp
    else genai_key w.
Proof. apply rerun_observed. Qed.

(** The configuration error is shown exactly when the credential is missing
    or empty. *)
Lemma rerun_errors inp w :
  errors (page (rerun inp w))
  = if truthy_opt (env_GOOGLE_API_KEY inp) then []
    else [py "❌ GOOGLE_API_KEY not set in .env file."].
Proof. apply rerun_observed. Qed.

(** A run that stops at [st.set_page_config] makes no call. *)
Lemma rerun_calls_stopped inp w :
  tabs_reached inp = false → calls (rerun inp w) = calls w.
Proof.
  intros Hstop. rewrite (proj1 (proj2 (proj2 (rerun_observed inp w)))), Hstop.
  apply app_nil_r.
Qed.

(** The calls a run that reaches the tabs adds to the log. *)
Lemma rerun_calls inp w :
  tabs_reached inp = true →
  calls (rerun inp w)
  = calls w ++
    if prd_accepted inp then
      [Call (genai_key (rerun inp w)) MODEL
            (prd_prompt (in_app_name inp) (in_app_idea inp)
               (app_type_str (in_app_type inp))
               (language_str (in_language inp)))]
    else if plan_accepted inp w then
      [Call (genai_key (rerun inp w)) MODEL
            (plan_prompt (plan_source inp w)
               (language_str (in_plan_language inp)))]
    else [].
Proof.
  intros Hreach. rewrite (proj1 (proj2 (proj2 (rerun_observed inp w)))), Hreach.
  reflexivity.
Qed.

Lemma rerun_warnings inp w :
  tabs_reached inp = true →
  warnings (page (rerun inp w))
  = match in_click inp with
    | NoClick => []
    | ClickGeneratePRD =>
        if negb (truthy (in_app_idea inp)) || negb (truthy (in_app_name inp))
        then [py "⚠️ Please enter both App Name and Description."] else []
    | ClickGeneratePlan =>
        if negb (truthy (strip (plan_source inp w)))
        then [py "⚠️ Please provide a PRD to generate a plan."] else []
    end.
Proof.
  intros Hreach.
  rewrite (proj1 (proj2 (proj2 (proj2 (rerun_observed inp w))))), Hreach.
  reflexivity.
Qed.

(** The handoff slot after a run: the PRD the run displayed, if it displayed
    one, and the old value otherwise. *)
Lemma rerun_last_prd inp w :
  session_state (rerun inp w) !! "last_prd"
  = match prd_generated inp w with
    | Some R => Some R
    | None => session_state w !! "last_prd"
    end.
Proof. apply rerun_observed. Qed.

(** A run whose submission is rejected, or that has none, displays no
    generated text. *)
Lemma rerun_rejected inp w :
  prd_accepted inp = false → plan_accepted inp w = false →
  markdowns (page (rerun inp w)) = [].
Proof. apply rerun_observed. Qed.

Lemma rerun_downloads inp w :
  downloads (page (rerun inp w))
  = match in_click inp with
    | NoClick => []
    | ClickGeneratePRD =>
        match prd_generated inp w with
        | Some R =>
            match utf8_encode R with
            | Some _ =>
                [(replace SPACE UNDERSCORE (in_app_name inp) ++ py "_PRD_"
                  ++ strftime_Ymd_HMS (in_now inp))
                 ++ match in_export_format inp with
                    | Markdown => py ".md"
                    | Text => py ".txt"
                    end]
            | None => []
            end
        | None => []
        end
    | ClickGeneratePlan =>
        match plan_generated inp w with
        | Some P =>
            match utf8_encode P with
            | Some _ =>
                [(py "ImplementationPlan_" ++ strftime_Ymd_HMS (in_now inp))
                 ++ py ".md"]
            | None => []
            end
        | None => []
        end
    end.
Proof. apply rerun_observed. Qed.

Ltac on_page :=
  apply list_elem_of_In; cbn -[insert lookup];
  repeat first [left; reflexivity | right].

(** The "PRD Input" text area of a run that reaches the tabs and is not a
    PRD submission shows the handoff slot's value, or nothing when the slot
    is unset. *)
Lemma rerun_text_area inp w :
  tabs_reached inp = true →
  in_click inp ≠ ClickGeneratePRD →
  el_text_area (py "PRD Input")
    (default (py "") (session_state w !! "last_prd")) (py "")
  ∈ page (rerun inp w).
Proof.
  destruct inp as [key name idea ? ? fmt ? ? clk ? ? first], w as [? ? ? ?].
  unfold tabs_reached. intros Hreach Hclick. cbn in Hreach, Hclick.
  destruct clk; [|done|]; unfold_script;
    destruct first, (truthy_opt key); try discriminate Hreach;
    simpl_run; repeat (run_step; simpl_run); on_page.
Qed.

(** In the run that generates the PRD, the text area below it already shows
    the new text. *)
Lemma rerun_text_area_same_run inp w R :
  prd_generated inp w = Some R → utf8_encode R ≠ None →
  el_text_area (py "PRD Input") R (py "") ∈ page (rerun inp w).
Proof.
  run_cases inp w; intros HR Henc;
    first [discriminate HR | injection HR as <-];
    try congruence;
    rewrite ?lookup_insert_ne, ?lookup_insert_eq by done; on_page.
Qed.

Lemma tab2_last_prd inp w :
  session_state (tab2 inp w).2 !! "last_prd" = session_state w !! "last_prd".
Proof.
  destruct inp as [? ? ? ? ? ? ? ? clk ? ? ?], w as [? ? ? ?].
  unfold_script. destruct clk; simpl_run; repeat (run_step; simpl_run);
    finish_run.
Qed.

Lemma reruns_last_prd inps w :
  no_prd_generated inps w →
  session_state (reruns inps w) !! "last_prd" = session_state w !! "last_prd".
Proof.
  revert w. induction inps as [|inp rest IH]; intros w; cbn.
  - reflexivity.
  - intros [Hnone Hrest]. rewrite (IH _ Hrest), rerun_last_prd, Hnone.
    reflexivity.
Qed.

Lemma reruns_genai_key inps w :
  Forall (λ i, truthy_opt (env_GOOGLE_API_KEY i) = false) inps →
  genai_key (reruns inps w) = genai_key w.
Proof.
  intros Hall. revert w.
  induction Hall as [|inp rest Hinp _ IH]; intros w; cbn.
  - reflexivity.
  - rewrite IH, rerun_genai_key, Hinp. reflexivity.
Qed.

(** ** The missing credential *)

(** A run that does not get past [st.set_page_config] ends in that call's
    exception, with the configuration error as the only thing on the page. *)
Lemma rerun_stopped inp w :
  tabs_reached inp = false →
  run_outcome inp w
  = Raised (PyExn "StreamlitSetPageConfigMustBeFirstCommandError")
  ∧ page (rerun inp w)
    = [el_error (py "❌ GOOGLE_API_KEY not set in .env file.")].
Proof.
  destruct inp as [key ? ? ? ? ? ? ? ? ? ? first], w as [? ? ? ?].
  unfold run_outcome. unfold_script.
  destruct first, (truthy_opt key); simpl_run; intros Hstop;
    try discriminate Hstop; split; reflexivity.
Qed.

Lemma reruns_calls_stopped inps w :
  Forall (λ i, tabs_reached i = false) inps →
  calls (reruns inps w) = calls w.
Proof.
  intros Hall. revert w.
  induction Hall as [|inp rest Hinp _ IH]; intros w; cbn [reruns].
  - reflexivity.
  - rewrite IH. apply rerun_calls_stopped, Hinp.
Qed.

(** C1, as stated, fails on a Streamlit release that accepts
    [set_page_config] after [st.error] (the repository pins no release):
    with [GOOGLE_API_KEY] unset, a PRD submission for "TaskFlow" still
    reaches [model.generate_content]; the call log of that run holds one
    call, made with no configured credential. *)
Lemma missing_key_model_still_called :
  env_GOOGLE_API_KEY (taskflow_submit None sample_gemini) = None
  ∧ st_page_config_first (taskflow_submit None sample_gemini) = false
  ∧ errors (page (rerun (taskflow_submit None sample_gemini) fresh_world))
    = [py "❌ GOOGLE_API_KEY not set in .env file."]
  ∧ calls (rerun (taskflow_submit None sample_gemini) fresh_world)
    = [Call None MODEL
         (prd_prompt (py "TaskFlow") (py "A todo app") (py "Web App")
                     (py "English"))].
Proof. repeat split; vm_compute; reflexivity. Qed.

(** C1, amended: through any sequence of runs without the credential (unset
    or empty), every run reports the configuration error exactly once and
    the library is never configured.  Whether a generation call is
    attempted depends on the Streamlit release.  Where [set_page_config]
    must be the first command, the run stops at that call with only the
    error on the page, so no call is made, in that run and in any sequence
    of such runs.  Where it may come later, the submit handlers are not
    gated on the credential: an accepted PRD or Plan submission invokes the
    model exactly once, with the configuration the session started with,
    and any other run invokes it zero times. *)
Theorem missing_key_reported_calls_follow_page_config_rule inps inp w :
  Forall (λ i, truthy_opt (env_GOOGLE_API_KEY i) = false) inps →
  truthy_opt (env_GOOGLE_API_KEY inp) = false →
  let w1 := reruns inps w in
  errors (page (rerun inp w1)) = [py "❌ GOOGLE_API_KEY not set in .env file."]
  ∧ genai_key (rerun inp w1) = genai_key w
  ∧ calls (rerun inp w1)
    = calls w1 ++
      (if st_page_config_first inp then []
       else if prd_accepted inp then
         [Call (genai_key w) MODEL
               (prd_prompt (in_app_name inp) (in_app_idea inp)
                  (app_type_str (in_app_type inp))
                  (language_str (in_language inp)))]
       else if plan_accepted inp w1 then
         [Call (genai_key w) MODEL
               (plan_prompt (plan_source inp w1)
                  (language_str (in_plan_language inp)))]
       else [])
  ∧ (st_page_config_first inp = true →
     run_outcome inp w1
     = Raised (PyExn "StreamlitSetPageConfigMustBeFirstCommandError")
     ∧ page (rerun inp w1)
       = [el_error (py "❌ GOOGLE_API_KEY not set in .env file.")])
  ∧ (Forall (λ i, st_page_config_first i = true) inps → calls w1 = calls w).
Proof.
  intros Hinps Hinp w1.
  assert (Hkey : genai_key (rerun inp w1) = genai_key w).
  { rewrite rerun_genai_key, Hinp. apply reruns_genai_key, Hinps. }
  assert (Hreach : tabs_reached inp = negb (st_page_config_first inp)).
  { unfold tabs_reached. rewrite Hinp. apply orb_false_r. }
  split; [|split; [|split; [|split]]].
  - rewrite rerun_errors, Hinp. reflexivity.
  - exact Hkey.
  - rewrite (proj1 (proj2 (proj2 (rerun_observed inp w1)))), Hkey, Hreach.
    destruct (st_page_config_first inp); reflexivity.
  - intros Hfirst. apply rerun_stopped. rewrite Hreach, Hfirst. reflexivity.
  - intros Hfirst. apply reruns_calls_stopped.
    clear -Hinps Hfirst. induction Hinps as [|i rest Hi _ IH]; [constructor|].
    inversion Hfirst as [|? ? Hi1 Hrest]; subst.
    constructor; [|exact (IH Hrest)].
    unfold tabs_reached. rewrite Hi, Hi1. reflexivity.
Qed.

Lemma missing_key_reported_calls_follow_page_config_rule_witness :
  Forall (λ i, truthy_opt (env_GOOGLE_API_KEY i) = false)
         [idle None sample_gemini; plan_submit (Some []) None sample_gemini]
  ∧ truthy_opt (env_GOOGLE_API_KEY
                  (on_strict_release (taskflow_submit None sample_gemini)))
    = false
  ∧ calls
      (rerun (on_strict_release (taskflow_submit None sample_gemini))
         (reruns [idle None sample_gemini;
                  plan_submit (Some []) None sample_gemini] fresh_world))
    = calls
        (reruns [idle None sample_gemini;
                 plan_submit (Some []) None sample_gemini] fresh_world)
      ++ [].
Proof.
  split; [repeat constructor|]. split; [reflexivity|].
  exact (proj1 (proj2 (proj2
    (missing_key_reported_calls_follow_page_config_rule
       [idle None sample_gemini; plan_submit (Some []) None sample_gemini]
       (on_strict_release (taskflow_submit None sample_gemini)) fresh_world
       ltac:(repeat constructor) eq_refl)))).
Defined.

(** ** The fallback of the generation functions *)

(** Only a false response takes the fallback: a true response object whose
    text is empty is returned as it is. *)
Example empty_text_is_returned :
  (generate_prd (λ _ _ _, Ok (Response true (Ok (py ""))))
     (py "TaskFlow") (py "A todo app") (py "Web App") (py "English")
     fresh_world).1
  = Ok (py "").
Proof. vm_compute. reflexivity. Qed.

(** Reading [.text] can itself fail, and then [generate_prd] fails too. *)
Example unreadable_text_is_raised :
  (generate_prd (λ _ _ _, Ok (Response true (Raised (PyExn "ValueError"))))
     (py "TaskFlow") (py "A todo app") (py "Web App") (py "English")
     fresh_world).1
  = Raised (PyExn "ValueError").
Proof. vm_compute. reflexivity. Qed.

(** C2: whenever the provider hands back a false value ([None], an empty
    result), [generate_prd] and [generate_plan] return the fixed text
    "⚠️ No response from Gemini." and raise nothing. *)
Theorem empty_response_gives_placeholder (gemini : provider)
    (app_name app_idea app_type language prd_text : str) (w : world) :
  (∀ key model prompt, ∃ r,
      gemini key model prompt = Ok r ∧ resp_truthy r = false) →
  (generate_prd gemini app_name app_idea app_type language w).1
    = Ok (py "⚠️ No response from Gemini.")
  ∧ (generate_plan gemini prd_text language w).1
    = Ok (py "⚠️ No response from Gemini.").
Proof.
  intros Hnull. unfold generate_prd, generate_plan, generate_content.
  unfold mbind, M_bind, mret, M_ret, lift. cbn.
  split.
  - destruct (Hnull (genai_key w) MODEL
                (prd_prompt app_name app_idea app_type language))
      as (r & -> & Hr).
    rewrite Hr. reflexivity.
  - destruct (Hnull (genai_key w) MODEL (plan_prompt prd_text language))
      as (r & -> & Hr).
    rewrite Hr. reflexivity.
Qed.

Lemma empty_response_gives_placeholder_witness :
  (∀ key model prompt, ∃ r,
      null_gemini key model prompt = Ok r ∧ resp_truthy r = false)
  ∧ (generate_prd null_gemini (py "TaskFlow") (py "A todo app") (py "Web App")
       (py "English") fresh_world).1
    = Ok (py "⚠️ No response from Gemini.").
Proof.
  assert (Hnull : ∀ key model prompt, ∃ r,
             null_gemini key model prompt = Ok r ∧ resp_truthy r = false).
  { intros key model prompt. eexists. split; reflexivity. }
  split; [exact Hnull|].
  exact (proj1 (empty_response_gives_placeholder null_gemini (py "TaskFlow")
                  (py "A todo app") (py "Web App") (py "English") []
                  fresh_world Hnull)).
Defined.

(** ** Validation of a PRD submission *)

(** C3: on a click on "Generate PRD", in a run that reaches the tabs, an
    empty name or an empty description gives the warning and no call of the
    model; a non-empty name and description give exactly one call and no
    warning. *)
Theorem prd_submission_validation inp w :
  tabs_reached inp = true →
  in_click inp = ClickGeneratePRD →
  (in_app_name inp = [] ∨ in_app_idea inp = [] →
     calls (rerun inp w) = calls w
     ∧ warnings (page (rerun inp w))
       = [py "⚠️ Please enter both App Name and Description."])
  ∧ (in_app_name inp ≠ [] ∧ in_app_idea inp ≠ [] →
     calls (rerun inp w)
       = calls w ++
         [Call (genai_key (rerun inp w)) MODEL
               (prd_prompt (in_app_name inp) (in_app_idea inp)
                  (app_type_str (in_app_type inp))
                  (language_str (in_language inp)))]
     ∧ warnings (page (rerun inp w)) = []).
Proof.
  intros Hreach Hclick.
  rewrite (rerun_calls inp w Hreach), (rerun_warnings inp w Hreach).
  unfold prd_accepted, plan_accepted.
  rewrite Hclick. cbn.
  destruct (in_app_name inp), (in_app_idea inp); cbn; rewrite ?app_nil_r;
    split; intros H; try done; destruct H; done.
Qed.

Lemma prd_submission_validation_witness :
  tabs_reached (taskflow_submit None sample_gemini) = true
  ∧ in_click (taskflow_submit None sample_gemini) = ClickGeneratePRD
  ∧ length (calls (rerun (taskflow_submit None sample_gemini) fresh_world))
    = 1%nat.
Proof.
  split; [reflexivity|]. split; [reflexivity|].
  rewrite (proj1 (proj2 (prd_submission_validation
                           (taskflow_submit None sample_gemini) fresh_world
                           eq_refl eq_refl)
                    ltac:(split; vm_compute; discriminate))).
  reflexivity.
Defined.

(** ** The handoff from the PRD tab to the Plan tab *)

(** C4: once a run has generated and displayed a PRD text [R], the default
    of the Plan tab's input is exactly [R]: in the slot read by
    [st.session_state.get("last_prd", "")], in the text area of that same
    run, and in every later run that reaches the tabs, for as long as no
    run generates a new PRD; a run that generates [R'] makes the default
    [R']. *)
Theorem handoff_default_is_last_prd inp w R later :
  prd_generated inp w = Some R →
  no_prd_generated later (rerun inp w) →
  let w' := reruns later (rerun inp w) in
  (session_state_get "last_prd" (py "") w').1 = Ok R
  ∧ (utf8_encode R ≠ None →
     el_text_area (py "PRD Input") R (py "") ∈ page (rerun inp w))
  ∧ (∀ next, tabs_reached next = true → in_click next ≠ ClickGeneratePRD →
     el_text_area (py "PRD Input") R (py "") ∈ page (rerun next w'))
  ∧ (∀ next R', prd_generated next w' = Some R' →
     (session_state_get "last_prd" (py "") (rerun next w')).1 = Ok R').
Proof.
  intros HR Hquiet w'.
  assert (Hslot : session_state w' !! "last_prd" = Some R).
  { unfold w'. rewrite (reruns_last_prd _ _ Hquiet), rerun_last_prd, HR.
    reflexivity. }
  split; [|split; [|split]].
  - unfold session_state_get. cbn. rewrite Hslot. reflexivity.
  - intros Henc. exact (rerun_text_area_same_run inp w R HR Henc).
  - intros next Hreach Hnext.
    pose proof (rerun_text_area next w' Hreach Hnext) as Harea.
    rewrite Hslot in Harea. exact Harea.
  - intros next R' HR'. unfold session_state_get. cbn.
    rewrite rerun_last_prd, HR'. reflexivity.
Qed.

Lemma handoff_default_is_last_prd_witness :
  prd_generated (taskflow_submit (Some (py "key")) sample_gemini) fresh_world
    = Some (py "# TaskFlow PRD")
  ∧ no_prd_generated
      [idle (Some (py "key")) sample_gemini;
       plan_submit (Some (py "key")) None sample_gemini]
      (rerun (taskflow_submit (Some (py "key")) sample_gemini) fresh_world)
  ∧ (session_state_get "last_prd" (py "")
       (reruns [idle (Some (py "key")) sample_gemini;
                plan_submit (Some (py "key")) None sample_gemini]
          (rerun (taskflow_submit (Some (py "key")) sample_gemini)
             fresh_world))).1
    = Ok (py "# TaskFlow PRD").
Proof.
  assert (HR : prd_generated (taskflow_submit (Some (py "key")) sample_gemini)
                 fresh_world = Some (py "# TaskFlow PRD"))
    by (vm_compute; reflexivity).
  assert (Hquiet : no_prd_generated
            [idle (Some (py "key")) sample_gemini;
             plan_submit (Some (py "key")) None sample_gemini]
            (rerun (taskflow_submit (Some (py "key")) sample_gemini)
               fresh_world))
    by (repeat split; vm_compute; reflexivity).
  split; [exact HR|]. split; [exact Hquiet|].
  exact (proj1 (handoff_default_is_last_prd _ _ _ _ HR Hquiet)).
Defined.

(** ** The prompts *)

Lemma substring_head (s u : str) : substring s (s ++ u).
Proof. exists [], u. reflexivity. Qed.

Lemma substring_skip (s t u : str) : substring s t → substring s (u ++ t).
Proof.
  intros (pre & post & ->). exists (u ++ pre), post.
  rewrite <- List.app_assoc. reflexivity.
Qed.

(** C5: the prompt [generate_prd] sends to the model contains the name and
    the description as they were passed, character for character. *)
Theorem prd_prompt_embeds_name_and_description (gemini : provider)
    (app_name app_idea app_type language : str) (w : world) :
  ∃ c, calls (generate_prd gemini app_name app_idea app_type language w).2
       = calls w ++ [c]
       ∧ call_prompt c = prd_prompt app_name app_idea app_type language
       ∧ substring app_name (call_prompt c)
       ∧ substring app_idea (call_prompt c).
Proof.
  eexists. split.
  - unfold generate_prd, generate_content, mbind, M_bind, mret, M_ret, lift.
    cbn. destruct (gemini _ _ _) as [r|e]; [destruct (resp_truthy r)|];
      reflexivity.
  - cbn [call_prompt]. split; [reflexivity|]. unfold prd_prompt, substring.
    split.
    + apply substring_skip, substring_head.
    + do 5 apply substring_skip. apply substring_head.
Qed.

(** C7: the prompt sent by [generate_prd] is a function of its four
    arguments alone, and the one sent by [generate_plan] of its two: two
    invocations with the same arguments, in whatever worlds and against
    whatever providers, send the same prompt, hence the same bytes. *)
Theorem prompts_deterministic (g1 g2 : provider) (w1 w2 : world)
    (app_name app_idea app_type language prd_text : str) :
  prompts_sent w1 (generate_prd g1 app_name app_idea app_type language w1).2
  = prompts_sent w2 (generate_prd g2 app_name app_idea app_type language w2).2
  ∧ prompts_sent w1 (generate_prd g1 app_name app_idea app_type language w1).2
    = [prd_prompt app_name app_idea app_type language]
  ∧ prompts_sent w1 (generate_plan g1 prd_text language w1).2
    = prompts_sent w2 (generate_plan g2 prd_text language w2).2
  ∧ prompts_sent w1 (generate_plan g1 prd_text language w1).2
    = [plan_prompt prd_text language]
  ∧ utf8_encode
      <$> prompts_sent w1
            (generate_prd g1 app_name app_idea app_type language w1).2
    = utf8_encode
      <$> prompts_sent w2
            (generate_prd g2 app_name app_idea app_type language w2).2
  ∧ utf8_encode <$> prompts_sent w1 (generate_plan g1 prd_text language w1).2
    = utf8_encode <$> prompts_sent w2 (generate_plan g2 prd_text language w2).2.
Proof.
  assert (Hprd : ∀ g w,
    prompts_sent w (generate_prd g app_name app_idea app_type language w).2
    = [prd_prompt app_name app_idea app_type language]).
  { intros g w. unfold prompts_sent, generate_prd, generate_content,
      mbind, M_bind, mret, M_ret, lift. cbn.
    destruct (g _ _ _) as [r|e]; [destruct (resp_truthy r)|]; cbn;
      rewrite drop_app_length; reflexivity. }
  assert (Hplan : ∀ g w,
    prompts_sent w (generate_plan g prd_text language w).2
    = [plan_prompt prd_text language]).
  { intros g w. unfold prompts_sent, generate_plan, generate_content,
      mbind, M_bind, mret, M_ret, lift. cbn.
    destruct (g _ _ _) as [r|e]; [destruct (resp_truthy r)|]; cbn;
      rewrite drop_app_length; reflexivity. }
  rewrite !Hprd, !Hplan. repeat split; reflexivity.
Qed.

(** ** Export file names *)



(** ** Validation of a Plan submission *)

(** C8: a click on "Generate Implementation Plan" with an empty document,
    in a run that reaches the tabs, gives the warning, no call of the
    model, no generated text and no download, and leaves the handoff slot
    as it was. *)
Theorem empty_plan_submission inp w :
  tabs_reached inp = true →
  in_click inp = ClickGeneratePlan →
  plan_source inp w = [] →
  warnings (page (rerun inp w)) = [py "⚠️ Please provide a PRD to generate a plan."]
  ∧ calls (rerun inp w) = calls w
  ∧ markdowns (page (rerun inp w)) = []
  ∧ downloads (page (rerun inp w)) = []
  ∧ session_state (rerun inp w) !! "last_prd" = session_state w !! "last_prd".
Proof.
  intros Hreach Hclick Hsource.
  assert (Hprd : prd_accepted inp = false)
    by (unfold prd_accepted; rewrite Hclick; reflexivity).
  assert (Hplan : plan_accepted inp w = false)
    by (unfold plan_accepted; rewrite Hclick, Hsource; reflexivity).
  pose proof (rerun_rejected inp w Hprd Hplan) as Hnone.
  split; [|split; [|split; [|split]]].
  - rewrite (rerun_warnings inp w Hreach), Hclick, Hsource. reflexivity.
  - rewrite (rerun_calls inp w Hreach), Hprd, Hplan. apply app_nil_r.
  - exact Hnone.
  - rewrite rerun_downloads, Hclick. unfold plan_generated.
    rewrite Hnone. destruct (click_eqb _ _); reflexivity.
  - rewrite rerun_last_prd. unfold prd_generated. rewrite Hclick.
    reflexivity.
Qed.

Lemma empty_plan_submission_witness :
  tabs_reached (plan_submit None None sample_gemini) = true
  ∧ in_click (plan_submit None None sample_gemini) = ClickGeneratePlan
  ∧ plan_source (plan_submit None None sample_gemini) fresh_world = []
  ∧ calls (rerun (plan_submit None None sample_gemini) fresh_world) = [].
Proof.
  split; [reflexivity|]. split; [reflexivity|]. split; [reflexivity|].
  exact (proj1 (proj2 (empty_plan_submission
                         (plan_submit None None sample_gemini) fresh_world
                         eq_refl eq_refl eq_refl))).
Defined.

(** ** The handoff slot is written by the PRD tab only *)

(** C9: the Plan tab leaves the value under "last_prd" as it found it,
    whatever it validates, generates or exports (it does store its language
    choice under "plan_lang"); over a whole run the slot changes only by
    taking the PRD text the run generated and displayed. *)
Theorem plan_tab_never_writes_handoff inp w :
  session_state (tab2 inp w).2 !! "last_prd" = session_state w !! "last_prd"
  ∧ session_state (rerun inp w) !! "last_prd"
    = match prd_generated inp w with
      | Some R => Some R
      | None => session_state w !! "last_prd"
      end
  ∧ (in_click inp ≠ ClickGeneratePRD →
     session_state (rerun inp w) !! "last_prd" = session_state w !! "last_prd").
Proof.
  split; [apply tab2_last_prd|]. split; [apply rerun_last_prd|].
  intros Hclick. rewrite rerun_last_prd. unfold prd_generated.
  destruct (in_click inp); [reflexivity|done|reflexivity].
Qed.

Lemma plan_tab_never_writes_handoff_witness :
  in_click (plan_submit (Some (py "key")) (Some (py "Build a todo app"))
              sample_gemini) ≠ ClickGeneratePRD
  ∧ session_state
      (rerun (plan_submit (Some (py "key")) (Some (py "Build a todo app"))
                sample_gemini)
         (World {["last_prd" := py "old"]} None [] [])) !! "last_prd"
    = Some (py "old").
Proof.
  assert (Hclick : in_click (plan_submit (Some (py "key"))
                     (Some (py "Build a todo app")) sample_gemini)
                   ≠ ClickGeneratePRD) by discriminate.
  split; [exact Hclick|].
  rewrite (proj2 (proj2 (plan_tab_never_writes_handoff _ _)) Hclick).
  vm_compute. reflexivity.
Defined.

(** ** Whitespace-only input *)

(** C10: in runs that reach the tabs, the PRD handler tests its fields for
    emptiness as they are, so a name and a description made of whitespace
    only pass and the model is called once; the Plan handler strips its
    document first, so one made of whitespace only is rejected with the
    warning and no call. *)
Theorem whitespace_only_submissions prd plan w1 w2 :
  tabs_reached prd = true → tabs_reached plan = true →
  in_click prd = ClickGeneratePRD →
  in_app_name prd ≠ [] → Forall (λ c, isspace c = true) (in_app_name prd) →
  in_app_idea prd ≠ [] → Forall (λ c, isspace c = true) (in_app_idea prd) →
  in_click plan = ClickGeneratePlan →
  Forall (λ c, isspace c = true) (plan_source plan w2) →
  (calls (rerun prd w1)
     = calls w1 ++
       [Call (genai_key (rerun prd w1)) MODEL
             (prd_prompt (in_app_name prd) (in_app_idea prd)
                (app_type_str (in_app_type prd))
                (language_str (in_language prd)))]
   ∧ warnings (page (rerun prd w1)) = [])
  ∧ (calls (rerun plan w2) = calls w2
     ∧ warnings (page (rerun plan w2))
       = [py "⚠️ Please provide a PRD to generate a plan."]).
Proof.
  intros Hr1 Hr2 Hprd Hname _ Hidea _ Hplan Hblank.
  apply truthy_true in Hname, Hidea.
  pose proof (strip_whitespace _ Hblank) as Hstrip.
  split; split.
  - rewrite (rerun_calls prd w1 Hr1). unfold prd_accepted.
    rewrite Hprd, Hname, Hidea. reflexivity.
  - rewrite (rerun_warnings prd w1 Hr1), Hprd, Hname, Hidea. reflexivity.
  - rewrite (rerun_calls plan w2 Hr2). unfold prd_accepted, plan_accepted.
    rewrite Hplan, Hstrip. apply app_nil_r.
  - rewrite (rerun_warnings plan w2 Hr2), Hplan, Hstrip. reflexivity.
Qed.

Lemma whitespace_only_submissions_witness :
  length (calls (rerun blank_prd_submit fresh_world)) = 1%nat
  ∧ calls (rerun (plan_submit None (Some [0x20; 0x0A; 0xA0]) sample_gemini)
             fresh_world) = [].
Proof.
  pose proof (whitespace_only_submissions blank_prd_submit
                (plan_submit None (Some [0x20; 0x0A; 0xA0]) sample_gemini)
                fresh_world fresh_world eq_refl eq_refl eq_refl
                ltac:(discriminate) ltac:(repeat constructor)
                ltac:(discriminate) ltac:(repeat constructor)
                eq_refl ltac:(repeat constructor)) as [[Hcalls _] [Hnone _]].
  split; [rewrite Hcalls; reflexivity|exact Hnone].
Defined.

(** * Further properties *)

(** ** UTF-8 round trip *)

Ltac euclid := zify; Z.to_euclidean_division_equations; lia.

(** Decoding the bytes of one encoded character gives the character back. *)
Lemma utf8_decode_encode_cp (c : N) (bs rest : bytes) :
  utf8_encode_cp c = Some bs → utf8_decode (bs ++ rest) = c :: utf8_decode rest.
Proof.
  unfold utf8_encode_cp.
  destruct (N.ltb_spec c 0x80) as [H1|H1].
  { intros [= <-]. cbn [app utf8_decode].
    destruct (N.ltb_spec c 0x80); [reflexivity|lia]. }
  destruct (N.ltb_spec c 0x800) as [H2|H2].
  { intros [= <-]. cbn [app utf8_decode].
    destruct (N.ltb_spec (0xC0 + c / 64) 0x80); [euclid|].
    destruct (N.ltb_spec (0xC0 + c / 64) 0xE0); [|euclid].
    f_equal. euclid. }
  destruct ((0xD800 <=? c) && (c <=? 0xDFFF)); [discriminate|].
  destruct (N.ltb_spec c 0x10000) as [H3|H3].
  { intros [= <-]. cbn [app utf8_decode].
    destruct (N.ltb_spec (0xE0 + c / 4096) 0x80); [euclid|].
    destruct (N.ltb_spec (0xE0 + c / 4096) 0xE0); [euclid|].
    destruct (N.ltb_spec (0xE0 + c / 4096) 0xF0); [|euclid].
    f_equal. euclid. }
  destruct (N.ltb_spec c 0x110000) as [H4|H4]; [|discriminate].
  intros [= <-]. cbn [app utf8_decode].
  destruct (N.ltb_spec (0xF0 + c / 262144) 0x80); [euclid|].
  destruct (N.ltb_spec (0xF0 + c / 262144) 0xE0); [euclid|].
  destruct (N.ltb_spec (0xF0 + c / 262144) 0xF0); [euclid|].
  f_equal. euclid.
Qed.

(** [s.encode("utf-8").decode("utf-8") == s] whenever the encoding succeeds. *)
Lemma utf8_decode_encode (s : str) (b : bytes) :
  utf8_encode s = Some b → utf8_decode b = s.
Proof.
  revert b. induction s as [|c r IH]; intros b;
    unfold utf8_encode; fold utf8_encode.
  - intros [= <-]. reflexivity.
  - destruct (utf8_encode_cp c) as [bc|] eqn:Hc; [|discriminate].
    destruct (utf8_encode r) as [br|] eqn:Hr; [|discriminate].
    intros [= <-]. rewrite (utf8_decode_encode_cp c bc br Hc).
    f_equal. apply IH. reflexivity.
Qed.

Arguments digits_value : simpl never.

(** The displayed text, the end of the run, the exports and the buttons of
    one run, in terms of the generation it performs.  A generated text is
    displayed only if it can be encoded. *)
Lemma rerun_result inp w :
  markdowns (page (rerun inp w))
  = match generation inp w with
    | Some (Ok t) =>
        match utf8_encode t with Some _ => [t] | None => [] end
    | _ => []
    end
  ∧ run_outcome inp w
    = (if tabs_reached inp then
         match generation inp w with
         | Some (Raised e) => Raised e
         | Some (Ok t) =>
             match utf8_encode t with
             | Some _ => Ok tt
             | None => Raised (PyExn "UnicodeEncodeError")
             end
         | None => Ok tt
         end
       else Raised (PyExn "StreamlitSetPageConfigMustBeFirstCommandError"))
  ∧ exports (page (rerun inp w))
    = match generation inp w with
      | Some (Ok t) =>
          match utf8_encode t with
          | Some b =>
              match in_click inp with
              | ClickGeneratePRD =>
                  [(b,
                    (replace SPACE UNDERSCORE (in_app_name inp) ++ py "_PRD_"
                     ++ strftime_Ymd_HMS (in_now inp))
                    ++ match in_export_format inp with
                       | Markdown => py ".md"
                       | Text => py ".txt"
                       end,
                    match in_export_format inp with
                    | Markdown => py "text/markdown"
                    | Text => py "text/plain"
                    end)]
              | _ =>
                  [(b,
                    (py "ImplementationPlan_" ++ strftime_Ymd_HMS (in_now inp))
                    ++ py ".md",
                    py "text/markdown")]
              end
          | None => []
          end
      | _ => []
      end
  ∧ buttons (page (rerun inp w))
    = (if tabs_reached inp then
         match in_click inp, run_outcome inp w with
         | ClickGeneratePRD, Raised _ => [py "🚀 Generate PRD"]
         | _, _ => [py "🚀 Generate PRD"; py "⚡ Generate Implementation Plan"]
         end
       else []).
Proof.
  unfold run_outcome, rerun, generation.
  remember (script inp (World (session_state w) (genai_key w) [] (calls w)))
    as r eqn:Hr.
  revert Hr.
  destruct inp as [key name idea ? ? fmt ? ? clk ? ? first], w as [? ? ? ?];
    unfold_script;
    destruct (truthy_opt key) eqn:?, first, name, idea, clk;
    simpl_run; repeat (run_step; simpl_run);
    intros ->; simpl_run;
    repeat match goal with
           | H : utf8_encode _ = _ |- _ => rewrite H; clear H
           end;
    repeat split; done.
Qed.

(** The generation of a run, when the provider's answer is known. *)
Lemma generation_prd inp w :
  tabs_reached inp = true → prd_accepted inp = true →
  generation inp w
  = Some (answer (in_gemini inp (genai_key (rerun inp w)) MODEL
                    (prd_prompt (in_app_name inp) (in_app_idea inp)
                       (app_type_str (in_app_type inp))
                       (language_str (in_language inp))))).
Proof.
  intros Hreach Hacc. unfold generation.
  rewrite Hreach, Hacc, rerun_genai_key. reflexivity.
Qed.

Lemma generation_plan inp w :
  tabs_reached inp = true →
  in_click inp = ClickGeneratePlan → plan_accepted inp w = true →
  generation inp w
  = Some (answer (in_gemini inp (genai_key (rerun inp w)) MODEL
                    (plan_prompt (plan_source inp w)
                       (language_str (in_plan_language inp))))).
Proof.
  intros Hreach Hclick Hacc. unfold generation, prd_accepted.
  rewrite Hreach, Hclick, Hacc, rerun_genai_key. reflexivity.
Qed.

Lemma prd_accepted_click inp :
  prd_accepted inp = true → in_click inp = ClickGeneratePRD.
Proof. unfold prd_accepted. destruct (in_click inp); done. Qed.

Lemma prd_generated_generation inp w :
  prd_accepted inp = true →
  prd_generated inp w
  = match generation inp w with
    | Some (Ok t) => match utf8_encode t with Some _ => Some t | None => None end
    | _ => None
    end.
Proof.
  intros Hacc. unfold prd_generated.
  rewrite (prd_accepted_click inp Hacc), (proj1 (rerun_result inp w)).
  cbn. destruct (generation inp w) as [[t|e]|]; [|reflexivity..].
  destruct (utf8_encode t); reflexivity.
Qed.

(** ** [str.strip] *)

Lemma lstrip_spec (s : str) :
  ∃ l, s = l ++ lstrip s
       ∧ Forall (λ c, isspace c = true) l
       ∧ (∀ c, head (lstrip s) = Some c → isspace c = false).
Proof.
  induction s as [|c r (l & Hr & Hl & Hhead)].
  - exists []. repeat split; [constructor|discriminate].
  - cbn [lstrip]. destruct (isspace c) eqn:Hc.
    + exists (c :: l). split; [cbn; congruence|]. split; [|exact Hhead].
      constructor; assumption.
    + exists []. split; [reflexivity|]. split; [constructor|].
      intros c' [= <-]. exact Hc.
Qed.

Lemma strip_spec (s : str) :
  ∃ l r, s = l ++ strip s ++ r
         ∧ Forall (λ c, isspace c = true) l
         ∧ Forall (λ c, isspace c = true) r
         ∧ (∀ c, head (strip s) = Some c → isspace c = false)
         ∧ (∀ c, list.last (strip s) = Some c → isspace c = false).
Proof.
  destruct (lstrip_spec s) as (l & Hs & Hl & Hhead).
  destruct (lstrip_spec (reverse (lstrip s))) as (l' & Hrev & Hl' & Hlast).
  unfold strip, rstrip.
  set (u := lstrip (reverse (lstrip s))) in *.
  assert (Ht : lstrip s = reverse u ++ reverse l').
  { rewrite <- reverse_app, <- Hrev, reverse_involutive. reflexivity. }
  exists l, (reverse l'). split; [|split; [|split; [|split]]].
  - rewrite <- Ht. exact Hs.
  - exact Hl.
  - apply Forall_reverse. exact Hl'.
  - intros c Hc. apply Hhead. rewrite Ht.
    destruct (reverse u); [discriminate|exact Hc].
  - intros c Hc. apply Hlast. rewrite last_reverse in Hc. exact Hc.
Qed.

(** X7: [strip] removes exactly the whitespace around a string: what it
    cuts off at either end is whitespace only, and what it returns neither
    starts nor ends with a whitespace character. *)
Theorem strip_removes_surrounding_whitespace (s : str) :
  ∃ l r, s = l ++ strip s ++ r
         ∧ Forall (λ c, isspace c = true) l
         ∧ Forall (λ c, isspace c = true) r
         ∧ (∀ c, head (strip s) = Some c → isspace c = false)
         ∧ (∀ c, list.last (strip s) = Some c → isspace c = false).
Proof. exact (strip_spec s). Qed.

Lemma strip_nil_iff (s : str) : strip s = [] ↔ forallb isspace s = true.
Proof.
  split.
  - intros Hnil.
    destruct (strip_spec s)
      as (l & r & Hs & Hl & Hr & _).
    rewrite Hnil in Hs. rewrite Hs. cbn [app].
    apply forallb_forall. intros c Hc. apply in_app_or in Hc.
    rewrite Forall_forall in Hl, Hr.
    destruct Hc as [Hc|Hc]; [apply Hl|apply Hr]; exact Hc.
  - intros Hall. apply strip_whitespace.
    rewrite forallb_forall in Hall. apply Forall_forall.
    intros c Hc. apply Hall, Hc.
Qed.

(** ** Validation of a Plan submission, both ways *)

(** X6: in a run that reaches the tabs, a Plan submission is rejected
    exactly when its document is empty or whitespace only; otherwise the
    model is called once, and the prompt embeds the document as entered,
    surrounding whitespace included. *)
Theorem plan_submission_validation inp w :
  tabs_reached inp = true →
  in_click inp = ClickGeneratePlan →
  if forallb isspace (plan_source inp w) then
    calls (rerun inp w) = calls w
    ∧ warnings (page (rerun inp w))
      = [py "⚠️ Please provide a PRD to generate a plan."]
  else
    calls (rerun inp w)
    = calls w ++
      [Call (genai_key (rerun inp w)) MODEL
            (plan_prompt (plan_source inp w)
               (language_str (in_plan_language inp)))]
    ∧ warnings (page (rerun inp w)) = [].
Proof.
  intros Hreach Hclick.
  rewrite (rerun_calls inp w Hreach), (rerun_warnings inp w Hreach).
  unfold prd_accepted, plan_accepted.
  rewrite Hclick. cbn.
  destruct (forallb isspace (plan_source inp w)) eqn:Hblank.
  - apply strip_nil_iff in Hblank. rewrite Hblank. cbn.
    split; [apply app_nil_r|reflexivity].
  - destruct (strip (plan_source inp w)) as [|c r] eqn:Hstrip.
    + apply strip_nil_iff in Hstrip. congruence.
    + cbn. split; reflexivity.
Qed.

Lemma plan_submission_validation_witness :
  tabs_reached (plan_submit None (Some (py "  Build it ")) sample_gemini)
    = true
  ∧ in_click (plan_submit None (Some (py "  Build it ")) sample_gemini)
    = ClickGeneratePlan
  ∧ calls (rerun (plan_submit None (Some (py "  Build it ")) sample_gemini)
             fresh_world)
    = [Call None MODEL (plan_prompt (py "  Build it ") (py "English"))].
Proof.
  split; [reflexivity|]. split; [reflexivity|].
  pose proof (plan_submission_validation
                (plan_submit None (Some (py "  Build it ")) sample_gemini)
                fresh_world eq_refl eq_refl) as Hv.
  assert (Hblank : forallb isspace
            (plan_source (plan_submit None (Some (py "  Build it "))
                            sample_gemini) fresh_world) = false)
    by (vm_compute; reflexivity).
  rewrite Hblank in Hv. destruct Hv as [Hcalls _].
  rewrite Hcalls. vm_compute. reflexivity.
Defined.

Lemma plan_accepted_click inp w :
  plan_accepted inp w = true → in_click inp = ClickGeneratePlan.
Proof. unfold plan_accepted. destruct (in_click inp); done. Qed.

Lemma prd_generated_none_plan inp w :
  in_click inp ≠ ClickGeneratePRD → prd_generated inp w = None.
Proof. unfold prd_generated. destruct (in_click inp); done. Qed.

(** ** A failing model call *)

(** The call a run adds to the log is the one of its accepted submission. *)
Lemma call_of_run inp w k m p :
  calls (rerun inp w) = calls w ++ [Call k m p] →
  tabs_reached inp = true
  ∧ k = genai_key (rerun inp w) ∧ m = MODEL
  ∧ ((prd_accepted inp = true
      ∧ p = prd_prompt (in_app_name inp) (in_app_idea inp)
              (app_type_str (in_app_type inp))
              (language_str (in_language inp)))
     ∨ (prd_accepted inp = false ∧ plan_accepted inp w = true
        ∧ p = plan_prompt (plan_source inp w)
                (language_str (in_plan_language inp)))).
Proof.
  intros Hcalls.
  destruct (tabs_reached inp) eqn:Hreach.
  - rewrite (rerun_calls inp w Hreach) in Hcalls.
    apply app_inv_head in Hcalls.
    destruct (prd_accepted inp) eqn:Hprd.
    + injection Hcalls as <- <- <-. repeat split. left. split; reflexivity.
    + destruct (plan_accepted inp w) eqn:Hplan; [|discriminate].
      injection Hcalls as <- <- <-. repeat split. right. repeat split.
  - rewrite (rerun_calls_stopped inp w Hreach) in Hcalls.
    rewrite <- (app_nil_r (calls w)) in Hcalls at 1.
    apply app_inv_head in Hcalls. discriminate.
Qed.

Lemma failing_call_generation inp w k m p e :
  calls (rerun inp w) = calls w ++ [Call k m p] →
  in_gemini inp k m p = Raised e →
  tabs_reached inp = true
  ∧ generation inp w = Some (Raised e) ∧ prd_generated inp w = None.
Proof.
  intros Hcalls Hfail.
  destruct (call_of_run inp w k m p Hcalls)
    as (Hreach & -> & -> & [[Hprd ->]|(Hprd & Hplan & ->)]);
    (split; [exact Hreach|]).
  - rewrite (prd_generated_generation inp w Hprd),
      (generation_prd inp w Hreach Hprd), Hfail. split; reflexivity.
  - pose proof (plan_accepted_click inp w Hplan) as Hclick. split.
    + rewrite (generation_plan inp w Hreach Hclick Hplan), Hfail.
      reflexivity.
    + apply prd_generated_none_plan. rewrite Hclick. discriminate.
Qed.

(** X1: when the model call of a run raises, the run is aborted with that
    very exception: nothing is displayed as generated, no download is
    offered and the handoff slot keeps its value; after a PRD submission the
    Plan tab is not even rendered in that run. *)
Theorem model_failure_aborts_run inp w k m p e :
  calls (rerun inp w) = calls w ++ [Call k m p] →
  in_gemini inp k m p = Raised e →
  run_outcome inp w = Raised e
  ∧ markdowns (page (rerun inp w)) = []
  ∧ exports (page (rerun inp w)) = []
  ∧ session_state (rerun inp w) !! "last_prd" = session_state w !! "last_prd"
  ∧ (in_click inp = ClickGeneratePRD →
     buttons (page (rerun inp w)) = [py "🚀 Generate PRD"]).
Proof.
  intros Hcalls Hfail.
  destruct (failing_call_generation inp w k m p e Hcalls Hfail)
    as (Hreach & Hgen & Hnone).
  destruct (rerun_result inp w) as (Hmd & Hout & Hexp & Hbut).
  rewrite Hgen in Hmd, Hout, Hexp. rewrite Hreach in Hout, Hbut.
  split; [exact Hout|]. split; [exact Hmd|]. split; [exact Hexp|].
  split.
  - rewrite rerun_last_prd, Hnone. reflexivity.
  - intros Hclick. rewrite Hbut, Hclick, Hout. reflexivity.
Qed.

Lemma model_failure_aborts_run_witness :
  calls (rerun (taskflow_submit None sample_gemini) fresh_world)
  = calls fresh_world ++
    [Call None MODEL
       (prd_prompt (py "TaskFlow") (py "A todo app") (py "Web App")
          (py "English"))]
  ∧ run_outcome (taskflow_submit None sample_gemini) fresh_world
    = Raised (PyExn "DefaultCredentialsError").
Proof.
  assert (Hcalls : calls (rerun (taskflow_submit None sample_gemini) fresh_world)
                   = calls fresh_world ++
                     [Call None MODEL
                        (prd_prompt (py "TaskFlow") (py "A todo app")
                           (py "Web App") (py "English"))])
    by (vm_compute; reflexivity).
  split; [exact Hcalls|].
  exact (proj1 (model_failure_aborts_run _ _ _ _ _ _ Hcalls eq_refl)).
Defined.

(** ** What a download contains *)

(** X2: the content of every download button is the UTF-8 encoding of the
    one text the run displays, so decoding the file gives that text back;
    a run offers at most one download, and its MIME type is text/plain for
    a PRD exported as Text and text/markdown otherwise. *)
Theorem export_content_is_displayed_text inp w d f m :
  (d, f, m) ∈ exports (page (rerun inp w)) →
  ∃ t, markdowns (page (rerun inp w)) = [t]
       ∧ utf8_encode t = Some d
       ∧ utf8_decode d = t
       ∧ exports (page (rerun inp w)) = [(d, f, m)]
       ∧ m = match in_click inp, in_export_format inp with
             | ClickGeneratePRD, Text => py "text/plain"
             | _, _ => py "text/markdown"
             end.
Proof.
  destruct (rerun_result inp w) as (Hmd & _ & Hexp & _).
  rewrite Hmd, Hexp.
  destruct (generation inp w) as [[t|e]|]; try (intros H; inversion H; fail).
  destruct (utf8_encode t) as [b|] eqn:Henc; [|intros H; inversion H].
  intros Hin. exists t.
  assert (Hd : b = d ∧ m = match in_click inp, in_export_format inp with
                           | ClickGeneratePRD, Text => py "text/plain"
                           | _, _ => py "text/markdown"
                           end
               ∧ match in_click inp with
                 | ClickGeneratePRD =>
                     [(b,
                       (replace SPACE UNDERSCORE (in_app_name inp) ++ py "_PRD_"
                        ++ strftime_Ymd_HMS (in_now inp))
                       ++ match in_export_format inp with
                          | Markdown => py ".md"
                          | Text => py ".txt"
                          end,
                       match in_export_format inp with
                       | Markdown => py "text/markdown"
                       | Text => py "text/plain"
                       end)]
                 | _ =>
                     [(b,
                       (py "ImplementationPlan_"
                        ++ strftime_Ymd_HMS (in_now inp)) ++ py ".md",
                       py "text/markdown")]
                 end = [(d, f, m)]).
  { destruct (in_click inp), (in_export_format inp);
      apply list_elem_of_singleton in Hin; injection Hin as -> -> ->;
      repeat split; reflexivity. }
  destruct Hd as (-> & Hm & Hone).
  split; [reflexivity|]. split; [exact Henc|].
  split; [apply utf8_decode_encode, Henc|].
  split; [exact Hone|exact Hm].
Qed.

Lemma export_content_is_displayed_text_witness :
  (octets "# TaskFlow PRD", py "TaskFlow_PRD_20240307_090500.md",
   py "text/markdown")
  ∈ exports (page (rerun (taskflow_submit (Some (py "key")) sample_gemini)
                     fresh_world))
  ∧ markdowns (page (rerun (taskflow_submit (Some (py "key")) sample_gemini)
                       fresh_world))
    = [utf8_decode (octets "# TaskFlow PRD")].
Proof.
  assert (Hin : (octets "# TaskFlow PRD", py "TaskFlow_PRD_20240307_090500.md",
                 py "text/markdown")
                ∈ exports (page (rerun (taskflow_submit (Some (py "key"))
                                          sample_gemini) fresh_world))).
  { apply list_elem_of_In. vm_compute. left. reflexivity. }
  split; [exact Hin|].
  destruct (export_content_is_displayed_text _ _ _ _ _ Hin)
    as (t & Hmd & _ & Hdec & _).
  rewrite Hmd, Hdec. reflexivity.
Defined.

(** ** A run without a click *)

(** X3: results live inside the button handlers, so a run that reaches the
    tabs and that no click triggered ends normally and shows no generated text, no download and no
    warning, calls nothing and leaves the handoff slot alone; the Plan
    tab's text area still shows the handed-over PRD. *)
Theorem run_without_click_shows_no_result inp w :
  tabs_reached inp = true →
  in_click inp = NoClick →
  run_outcome inp w = Ok tt
  ∧ calls (rerun inp w) = calls w
  ∧ warnings (page (rerun inp w)) = []
  ∧ markdowns (page (rerun inp w)) = []
  ∧ exports (page (rerun inp w)) = []
  ∧ session_state (rerun inp w) !! "last_prd" = session_state w !! "last_prd"
  ∧ el_text_area (py "PRD Input")
      (default (py "") (session_state w !! "last_prd")) (py "")
    ∈ page (rerun inp w).
Proof.
  intros Hreach Hclick.
  assert (Hprd : prd_accepted inp = false)
    by (unfold prd_accepted; rewrite Hclick; reflexivity).
  assert (Hplan : plan_accepted inp w = false)
    by (unfold plan_accepted; rewrite Hclick; reflexivity).
  assert (Hgen : generation inp w = None)
    by (unfold generation; rewrite Hreach, Hprd, Hplan; reflexivity).
  destruct (rerun_result inp w) as (Hmd & Hout & Hexp & _).
  rewrite Hgen in Hmd, Hout, Hexp. rewrite Hreach in Hout.
  split; [exact Hout|]. split; [|split; [|split; [exact Hmd|split;
    [exact Hexp|split]]]].
  - rewrite (rerun_calls inp w Hreach), Hprd, Hplan. apply app_nil_r.
  - rewrite (rerun_warnings inp w Hreach), Hclick. reflexivity.
  - rewrite rerun_last_prd, prd_generated_none_plan; [reflexivity|].
    rewrite Hclick. discriminate.
  - apply rerun_text_area; [exact Hreach|]. rewrite Hclick. discriminate.
Qed.

Lemma run_without_click_shows_no_result_witness :
  tabs_reached (idle (Some (py "key")) sample_gemini) = true
  ∧ in_click (idle (Some (py "key")) sample_gemini) = NoClick
  ∧ markdowns
      (page (rerun (idle (Some (py "key")) sample_gemini)
               (rerun (taskflow_submit (Some (py "key")) sample_gemini)
                  fresh_world)))
    = [].
Proof.
  split; [reflexivity|]. split; [reflexivity|].
  exact (proj1 (proj2 (proj2 (proj2
    (run_without_click_shows_no_result
       (idle (Some (py "key")) sample_gemini)
       (rerun (taskflow_submit (Some (py "key")) sample_gemini) fresh_world)
       eq_refl eq_refl))))).
Defined.

(** ** The call log over a session *)

Lemma rerun_new_calls inp w :
  ∃ new, calls (rerun inp w) = calls w ++ new
         ∧ (length new ≤ 1)%nat
         ∧ Forall (λ c, call_model c = MODEL
                        ∧ call_key c = genai_key (rerun inp w)) new.
Proof.
  rewrite (proj1 (proj2 (proj2 (rerun_observed inp w)))).
  destruct (tabs_reached inp); cbn [negb];
    [destruct (prd_accepted inp); [|destruct (plan_accepted inp w)]|];
    eexists; (split; [reflexivity|]); (split; [cbn [length]; lia|]);
    repeat first [apply Forall_nil | apply Forall_cons];
    cbn [call_model call_key]; split; reflexivity.
Qed.

(** X4: over a whole session the call log only grows: earlier calls stay
    as they are, every run adds at most one call, and every call goes to
    the model "gemini-1.5-flash". *)
Theorem session_calls_append_only inps w :
  ∃ new, calls (reruns inps w) = calls w ++ new
         ∧ (length new ≤ length inps)%nat
         ∧ Forall (λ c, call_model c = MODEL) new.
Proof.
  revert w. induction inps as [|inp rest IH]; intros w; cbn [reruns].
  - exists []. rewrite app_nil_r. repeat split; [cbn; lia|constructor].
  - destruct (rerun_new_calls inp w) as (one & Hone & Hlen & Hmodel).
    destruct (IH (rerun inp w)) as (more & Hmore & Hlen' & Hmodel').
    exists (one ++ more). split; [|split].
    + rewrite Hmore, Hone, <- List.app_assoc. reflexivity.
    + rewrite length_app. cbn [length]. lia.
    + apply Forall_app. split; [|exact Hmodel'].
      eapply Forall_impl; [|exact Hmodel]. intros c [Hc _]. exact Hc.
Qed.

(** ** A credential that is present *)

(** X5: with a non-empty credential no configuration error is shown, the
    library is configured with that credential before any handler runs,
    and the call the run makes, if any, is made with it. *)
Theorem present_key_configured_and_used inp w :
  truthy_opt (env_GOOGLE_API_KEY inp) = true →
  errors (page (rerun inp w)) = []
  ∧ genai_key (rerun inp w) = env_GOOGLE_API_KEY inp
  ∧ ∃ new, calls (rerun inp w) = calls w ++ new
           ∧ Forall (λ c, call_key c = env_GOOGLE_API_KEY inp) new.
Proof.
  intros Hkey.
  assert (Hconf : genai_key (rerun inp w) = env_GOOGLE_API_KEY inp)
    by (rewrite rerun_genai_key, Hkey; reflexivity).
  split; [rewrite rerun_errors, Hkey; reflexivity|]. split; [exact Hconf|].
  destruct (rerun_new_calls inp w) as (new & Hnew & _ & Hall).
  exists new. split; [exact Hnew|].
  eapply Forall_impl; [|exact Hall]. intros c [_ Hc].
  rewrite Hc. exact Hconf.
Qed.

Lemma present_key_configured_and_used_witness :
  truthy_opt (env_GOOGLE_API_KEY (taskflow_submit (Some (py "key")) sample_gemini))
    = true
  ∧ genai_key (rerun (taskflow_submit (Some (py "key")) sample_gemini)
                 (rerun (idle None sample_gemini) fresh_world))
    = Some (py "key").
Proof.
  split; [reflexivity|].
  exact (proj1 (proj2 (present_key_configured_and_used
                         (taskflow_submit (Some (py "key")) sample_gemini)
                         (rerun (idle None sample_gemini) fresh_world)
                         eq_refl))).
Defined.

(** ** The time stamp read back *)

Lemma two_digits_value (n : N) :
  n < 100 → digits_value (zfill 2 (decimal n)) = n.
Proof.
  intros Hn.
  assert (Hall : forallb (λ m, digits_value (zfill 2 (decimal m)) =? m)
                         (map N.of_nat (seq 0 (N.to_nat 100))) = true)
    by (vm_compute; reflexivity).
  rewrite forallb_forall in Hall. apply N.eqb_eq, Hall.
  apply below_enumerated. exact Hn.
Qed.

Lemma four_digits_value (n : N) :
  n ≤ 9999 → digits_value (zfill 4 (decimal n)) = n.
Proof.
  intros Hn.
  assert (Hall : forallb (λ m, digits_value (zfill 4 (decimal m)) =? m)
                         (map N.of_nat (seq 0 (N.to_nat 10000))) = true)
    by (vm_compute; reflexivity).
  rewrite forallb_forall in Hall. apply N.eqb_eq, Hall.
  apply below_enumerated. lia.
Qed.

(** X8: the time stamp of a file name can be read back: parsing it gives
    the moment of the export to the second, so exports made at different
    seconds get different stamps. *)
Theorem timestamp_round_trip (d : datetime) :
  valid_datetime d = true → 1000 ≤ year d →
  parse_timestamp (strftime_Ymd_HMS d) = d
  ∧ ∀ d', valid_datetime d' = true → 1000 ≤ year d' →
          strftime_Ymd_HMS d' = strftime_Ymd_HMS d → d' = d.
Proof.
  assert (Hparse : ∀ x, valid_datetime x = true → 1000 ≤ year x →
                        parse_timestamp (strftime_Ymd_HMS x) = x).
  { clear d. intros d. destruct d as [Y m dd H M S].
    unfold valid_datetime; cbn [year month day hour minute second].
    rewrite !andb_true_iff, !N.leb_le.
    intros [[[[[[[[HY1 HY2] Hm1] Hm2] Hd1] Hd2] HH] HM] HS] HY.
    pose proof (four_digits_year Y HY HY2) as EY.
    pose proof (two_digits_below_100 m ltac:(lia)) as Em.
    pose proof (two_digits_below_100 dd ltac:(lia)) as Ed.
    pose proof (two_digits_below_100 H ltac:(lia)) as EH.
    pose proof (two_digits_below_100 M ltac:(lia)) as EM.
    pose proof (two_digits_below_100 S ltac:(lia)) as ES.
    pose proof (four_digits_value Y HY2) as VY.
    pose proof (two_digits_value m ltac:(lia)) as Vm.
    pose proof (two_digits_value dd ltac:(lia)) as Vd.
    pose proof (two_digits_value H ltac:(lia)) as VH.
    pose proof (two_digits_value M ltac:(lia)) as VM.
    pose proof (two_digits_value S ltac:(lia)) as VS.
    unfold strftime_Ymd_HMS; cbn [year month day hour minute second].
    destruct (zfill 4 (decimal Y)) as [|y1 [|y2 [|y3 [|y4 [|]]]]];
      try discriminate.
    destruct (zfill 2 (decimal m)) as [|m1 [|m2 [|]]]; try discriminate.
    destruct (zfill 2 (decimal dd)) as [|d1 [|d2 [|]]]; try discriminate.
    destruct (zfill 2 (decimal H)) as [|h1 [|h2 [|]]]; try discriminate.
    destruct (zfill 2 (decimal M)) as [|n1 [|n2 [|]]]; try discriminate.
    destruct (zfill 2 (decimal S)) as [|s1 [|s2 [|]]]; try discriminate.
    unfold parse_timestamp. cbn [app take drop].
    rewrite VY, Vm, Vd, VH, VM, VS. reflexivity. }
  intros Hvalid Hyear. split; [exact (Hparse d Hvalid Hyear)|].
  intros d' Hvalid' Hyear' Hsame.
  rewrite <- (Hparse d' Hvalid' Hyear'), Hsame.
  exact (Hparse d Hvalid Hyear).
Qed.

Lemma timestamp_round_trip_witness :
  valid_datetime sample_now = true ∧ 1000 ≤ year sample_now
  ∧ parse_timestamp (strftime_Ymd_HMS sample_now) = sample_now.
Proof.
  assert (Hyear : 1000 ≤ year sample_now) by (vm_compute; discriminate).
  split; [reflexivity|]. split; [exact Hyear|].
  exact (proj1 (timestamp_round_trip sample_now eq_refl Hyear)).
Defined.

Lemma default_None {A} (x : A) : default x None = x.
Proof. reflexivity. Qed.

Lemma default_Some {A} (x y : A) : default x (Some y) = y.
Proof. reflexivity. Qed.

Lemma answer_false (r : response) :
  resp_truthy r = false → answer (Ok r) = Ok NO_RESPONSE.
Proof. intros Hr. unfold answer. rewrite Hr. reflexivity. Qed.

Lemma answer_text (t : str) : answer (Ok (Response true (Ok t))) = Ok t.
Proof. reflexivity. Qed.

Lemma no_response_encodes :
  utf8_encode NO_RESPONSE = Some (octets "⚠️ No response from Gemini.").
Proof. vm_compute. reflexivity. Qed.

Lemma no_response_not_blank : truthy (strip NO_RESPONSE) = true.
Proof. vm_compute. reflexivity. Qed.

(** ** The placeholder is treated as a result *)

(** X9: in runs that reach the tabs, an empty answer to an accepted PRD
    submission is treated as a result: the placeholder is displayed, stored in the handoff slot and
    offered for download, and a following Plan submission that leaves the
    text area untouched sends the placeholder to the model as the PRD. *)
Theorem empty_answer_becomes_the_prd inp w r :
  tabs_reached inp = true →
  prd_accepted inp = true →
  in_gemini inp (genai_key (rerun inp w)) MODEL
    (prd_prompt (in_app_name inp) (in_app_idea inp)
       (app_type_str (in_app_type inp)) (language_str (in_language inp)))
  = Ok r →
  resp_truthy r = false →
  run_outcome inp w = Ok tt
  ∧ markdowns (page (rerun inp w)) = [NO_RESPONSE]
  ∧ session_state (rerun inp w) !! "last_prd" = Some NO_RESPONSE
  ∧ (∃ d f m, exports (page (rerun inp w)) = [(d, f, m)]
              ∧ utf8_decode d = NO_RESPONSE)
  ∧ ∀ next, tabs_reached next = true →
      in_click next = ClickGeneratePlan → in_prd_input next = None →
      calls (rerun next (rerun inp w))
      = calls (rerun inp w) ++
        [Call (genai_key (rerun next (rerun inp w))) MODEL
              (plan_prompt NO_RESPONSE (language_str (in_plan_language next)))].
Proof.
  intros Hreach Hacc Hans Hfalse.
  assert (Hgen : generation inp w = Some (Ok NO_RESPONSE)).
  { rewrite (generation_prd inp w Hreach Hacc), Hans, (answer_false r Hfalse).
    reflexivity. }
  assert (Hslot : session_state (rerun inp w) !! "last_prd" = Some NO_RESPONSE).
  { rewrite rerun_last_prd, (prd_generated_generation inp w Hacc), Hgen,
      no_response_encodes. reflexivity. }
  destruct (rerun_result inp w) as (Hmd & Hout & Hexp & _).
  rewrite Hgen, no_response_encodes in Hmd, Hout, Hexp.
  rewrite Hreach in Hout.
  split; [exact Hout|]. split; [exact Hmd|]. split; [exact Hslot|]. split.
  - rewrite Hexp, (prd_accepted_click inp Hacc).
    eexists _, _, _. split; [reflexivity|].
    apply utf8_decode_encode, no_response_encodes.
  - intros next Hnext Hclick Hedit.
    assert (Hsrc : plan_source next (rerun inp w) = NO_RESPONSE).
    { unfold plan_source. rewrite Hedit, Hslot, default_None, default_Some.
      reflexivity. }
    rewrite (rerun_calls next _ Hnext). unfold prd_accepted, plan_accepted.
    rewrite Hclick, Hsrc, no_response_not_blank. reflexivity.
Qed.

Lemma empty_answer_becomes_the_prd_witness :
  tabs_reached (taskflow_submit (Some (py "key")) null_gemini) = true
  ∧ prd_accepted (taskflow_submit (Some (py "key")) null_gemini) = true
  ∧ markdowns (page (rerun (taskflow_submit (Some (py "key")) null_gemini)
                       fresh_world))
    = [NO_RESPONSE].
Proof.
  split; [reflexivity|]. split; [reflexivity|].
  exact (proj1 (proj2 (empty_answer_becomes_the_prd
                         (taskflow_submit (Some (py "key")) null_gemini)
                         fresh_world _ eq_refl eq_refl eq_refl eq_refl))).
Defined.

(** ** A text that cannot be encoded *)

(** X10: a generated PRD that cannot be encoded as UTF-8 (it holds a lone
    surrogate) is lost.  The model has been called, but the run fails when
    the text is to be displayed, before it is saved or exported: nothing
    is displayed, no download is offered, the handoff slot keeps its old
    value and the Plan tab is not rendered in that run. *)
Theorem unencodable_prd_is_lost inp w t :
  tabs_reached inp = true →
  prd_accepted inp = true →
  in_gemini inp (genai_key (rerun inp w)) MODEL
    (prd_prompt (in_app_name inp) (in_app_idea inp)
       (app_type_str (in_app_type inp)) (language_str (in_language inp)))
  = Ok (Response true (Ok t)) →
  utf8_encode t = None →
  (∃ e, run_outcome inp w = Raised e)
  ∧ calls (rerun inp w)
    = calls w ++
      [Call (genai_key (rerun inp w)) MODEL
            (prd_prompt (in_app_name inp) (in_app_idea inp)
               (app_type_str (in_app_type inp))
               (language_str (in_language inp)))]
  ∧ markdowns (page (rerun inp w)) = []
  ∧ exports (page (rerun inp w)) = []
  ∧ session_state (rerun inp w) !! "last_prd" = session_state w !! "last_prd"
  ∧ buttons (page (rerun inp w)) = [py "🚀 Generate PRD"].
Proof.
  intros Hreach Hacc Hans Henc.
  assert (Hgen : generation inp w = Some (Ok t)).
  { rewrite (generation_prd inp w Hreach Hacc), Hans, answer_text.
    reflexivity. }
  destruct (rerun_result inp w) as (Hmd & Hout & Hexp & Hbut).
  rewrite Hgen, Henc in Hmd, Hout, Hexp. rewrite Hreach in Hout, Hbut.
  split; [eexists; exact Hout|].
  split; [rewrite (rerun_calls inp w Hreach), Hacc; reflexivity|].
  split; [exact Hmd|]. split; [exact Hexp|]. split.
  - rewrite rerun_last_prd, (prd_generated_generation inp w Hacc), Hgen, Henc.
    reflexivity.
  - rewrite Hbut, (prd_accepted_click inp Hacc), Hout. reflexivity.
Qed.

Lemma unencodable_prd_is_lost_witness :
  tabs_reached (taskflow_submit (Some (py "key")) surrogate_gemini) = true
  ∧ prd_accepted (taskflow_submit (Some (py "key")) surrogate_gemini) = true
  ∧ utf8_encode [0x50; 0xD800] = None
  ∧ session_state
      (rerun (taskflow_submit (Some (py "key")) surrogate_gemini)
         (World {["last_prd" := py "old"]} None [] []))
    !! "last_prd"
    = session_state (World {["last_prd" := py "old"]} None [] []) !! "last_prd".
Proof.
  assert (Henc : utf8_encode [0x50; 0xD800] = None) by (vm_compute; reflexivity).
  split; [reflexivity|]. split; [reflexivity|]. split; [exact Henc|].
  exact (proj1 (proj2 (proj2 (proj2 (proj2
    (unencodable_prd_is_lost
       (taskflow_submit (Some (py "key")) surrogate_gemini)
       (World {["last_prd" := py "old"]} None [] []) _
       eq_refl eq_refl eq_refl Henc)))))).
Defined.

(** ** What a run writes into the session state *)

(** X11: a run writes the session state under "last_prd" and "plan_lang"
    only; every other key keeps its value, and in a run that reaches the
    tabs after no PRD click, "plan_lang" holds the chosen language. *)
Theorem session_state_frame inp w :
  (∀ k : string, k ≠ "last_prd" → k ≠ "plan_lang" →
     session_state (rerun inp w) !! k = session_state w !! k)
  ∧ (tabs_reached inp = true → in_click inp ≠ ClickGeneratePRD →
     session_state (rerun inp w) !! "plan_lang"
     = Some (language_str (in_plan_language inp))).
Proof.
  run_cases inp w; (split; [intros k Hk1 Hk2|intros Hreach Hclick]);
    rewrite ?lookup_insert_eq;
    rewrite ?lookup_insert_ne by congruence; done.
Qed.

Lemma session_state_frame_witness :
  in_click (plan_submit None None sample_gemini) ≠ ClickGeneratePRD
  ∧ session_state (rerun (plan_submit None None sample_gemini) fresh_world)
    !! "plan_lang" = Some (py "English").
Proof.
  assert (Hclick : in_click (plan_submit None None sample_gemini)
                   ≠ ClickGeneratePRD) by discriminate.
  split; [exact Hclick|].
  exact (proj2 (session_state_frame (plan_submit None None sample_gemini)
                  fresh_world) eq_refl Hclick).
Defined.

(** ** The PRD tab reads neither the session state nor the Plan tab *)

Lemma prompts_sent_stopped inp w :
  tabs_reached inp = false → prompts_sent w (rerun inp w) = [].
Proof.
  intros Hstop. unfold prompts_sent.
  rewrite (rerun_calls_stopped inp w Hstop), drop_all. reflexivity.
Qed.

Lemma prompts_sent_rerun inp w :
  tabs_reached inp = true →
  prompts_sent w (rerun inp w)
  = if prd_accepted inp then
      [prd_prompt (in_app_name inp) (in_app_idea inp)
         (app_type_str (in_app_type inp)) (language_str (in_language inp))]
    else if plan_accepted inp w then
      [plan_prompt (plan_source inp w) (language_str (in_plan_language inp))]
    else [].
Proof.
  intros Hreach.
  unfold prompts_sent. rewrite (rerun_calls inp w Hreach), drop_app_length.
  destruct (prd_accepted inp); [|destruct (plan_accepted inp w)];
    reflexivity.
Qed.

Lemma plan_not_accepted_on_prd_click inp w :
  in_click inp = ClickGeneratePRD → plan_accepted inp w = false.
Proof. intros Hclick. unfold plan_accepted. rewrite Hclick. reflexivity. Qed.

(** X12: a PRD submission reads neither the session state nor the Plan
    tab's fields: two such submissions with the same PRD fields, clock,
    provider, credential and Streamlit release end the same way, send the same prompt and
    show the same warning, text and download, whatever the session state,
    the Plan document and the Plan language are. *)
Theorem prd_submission_ignores_session_and_plan_tab inp1 inp2 w1 w2 :
  in_click inp1 = ClickGeneratePRD → in_click inp2 = ClickGeneratePRD →
  env_GOOGLE_API_KEY inp1 = env_GOOGLE_API_KEY inp2 →
  in_app_name inp1 = in_app_name inp2 →
  in_app_idea inp1 = in_app_idea inp2 →
  in_app_type inp1 = in_app_type inp2 →
  in_language inp1 = in_language inp2 →
  in_export_format inp1 = in_export_format inp2 →
  in_now inp1 = in_now inp2 →
  in_gemini inp1 = in_gemini inp2 →
  st_page_config_first inp1 = st_page_config_first inp2 →
  genai_key w1 = genai_key w2 →
  run_outcome inp1 w1 = run_outcome inp2 w2
  ∧ prompts_sent w1 (rerun inp1 w1) = prompts_sent w2 (rerun inp2 w2)
  ∧ warnings (page (rerun inp1 w1)) = warnings (page (rerun inp2 w2))
  ∧ markdowns (page (rerun inp1 w1)) = markdowns (page (rerun inp2 w2))
  ∧ exports (page (rerun inp1 w1)) = exports (page (rerun inp2 w2))
  ∧ prd_generated inp1 w1 = prd_generated inp2 w2.
Proof.
  intros Hc1 Hc2 Hkey Hname Hidea Htype Hlang Hfmt Hnow Hgem Hfirst Hconf.
  assert (Hacc : prd_accepted inp1 = prd_accepted inp2).
  { unfold prd_accepted. rewrite Hc1, Hc2, Hname, Hidea. reflexivity. }
  assert (Hreach : tabs_reached inp1 = tabs_reached inp2).
  { unfold tabs_reached. rewrite Hfirst, Hkey. reflexivity. }
  assert (Hgen : generation inp1 w1 = generation inp2 w2).
  { unfold generation.
    rewrite (plan_not_accepted_on_prd_click inp1 w1 Hc1),
      (plan_not_accepted_on_prd_click inp2 w2 Hc2),
      Hreach, Hacc, Hkey, Hname, Hidea, Htype, Hlang, Hgem, Hconf.
    reflexivity. }
  destruct (rerun_result inp1 w1) as (Hmd1 & Hout1 & Hexp1 & _).
  destruct (rerun_result inp2 w2) as (Hmd2 & Hout2 & Hexp2 & _).
  destruct (rerun_observed inp1 w1) as (_ & _ & _ & Hw1 & _).
  destruct (rerun_observed inp2 w2) as (_ & _ & _ & Hw2 & _).
  assert (Hmd : markdowns (page (rerun inp1 w1))
                = markdowns (page (rerun inp2 w2)))
    by (rewrite Hmd1, Hmd2, Hgen; reflexivity).
  split; [rewrite Hout1, Hout2, Hgen, Hreach; reflexivity|].
  split.
  { destruct (tabs_reached inp2) eqn:Hr2.
    - rewrite (prompts_sent_rerun inp1 w1 Hreach),
        (prompts_sent_rerun inp2 w2 Hr2), Hacc,
        (plan_not_accepted_on_prd_click inp1 w1 Hc1),
        (plan_not_accepted_on_prd_click inp2 w2 Hc2),
        Hname, Hidea, Htype, Hlang. reflexivity.
    - rewrite (prompts_sent_stopped inp1 w1 Hreach),
        (prompts_sent_stopped inp2 w2 Hr2). reflexivity. }
  split.
  { rewrite Hw1, Hw2, Hreach, Hc1, Hc2, Hname, Hidea.
    destruct (tabs_reached inp2); reflexivity. }
  split; [exact Hmd|].
  split.
  { rewrite Hexp1, Hexp2, Hgen, Hc1, Hc2, Hname, Hfmt, Hnow. reflexivity. }
  unfold prd_generated. rewrite Hc1, Hc2, Hmd. reflexivity.
Qed.

Lemma prd_submission_ignores_session_and_plan_tab_witness :
  prd_generated
    (RunInput (Some (py "key")) (py "TaskFlow") (py "A todo app") WebApp
       English Markdown (Some (py "an old PRD")) Telugu ClickGeneratePRD
       sample_now sample_gemini false)
    (World {["last_prd" := py "old"]} (Some (py "key")) [] [])
  = prd_generated (taskflow_submit (Some (py "key")) sample_gemini)
      (World ∅ (Some (py "key")) [] []).
Proof.
  exact (proj2 (proj2 (proj2 (proj2 (proj2
    (prd_submission_ignores_session_and_plan_tab
       (RunInput (Some (py "key")) (py "TaskFlow") (py "A todo app") WebApp
          English Markdown (Some (py "an old PRD")) Telugu ClickGeneratePRD
          sample_now sample_gemini false)
       (taskflow_submit (Some (py "key")) sample_gemini)
       (World {["last_prd" := py "old"]} (Some (py "key")) [] [])
       (World ∅ (Some (py "key")) [] [])
       eq_refl eq_refl eq_refl eq_refl eq_refl eq_refl eq_refl eq_refl
       eq_refl eq_refl eq_refl eq_refl)))))).
Defined.
